(** * warmconnector: the rule-based networking RAG (SimpleNetworkingRAG)
      and the phrase-trigger insight extractor (NetworkingRAGPipeline)

    Shallow embedding of
      - src/server/services/simpleHaystackRAG.py   (class SimpleNetworkingRAG)
      - src/server/services/haystack_rag_pipeline.py
                                  (NetworkingRAGPipeline.extract_insights)

    Modelling choices.
      - A Python [str] is a sequence of code points; the model keeps the
        code points below 256 (Rocq's [string]), on which [str.lower],
        [str.isspace] and [str.split] are written out as CPython computes
        them.
      - Values whose type the source leaves open ([Dict[str, Any]]) are
        JSON-like [value]s; an operation applied to a value of the wrong
        type raises, as it does in Python.
      - [self.documents] and [self.knowledge_base] form the state [rag];
        methods are computations in a state-and-exception monad [M].
      - The float literals 0.85 and 0.0 are kept as the rationals their
        source text denotes. *)

From Stdlib Require Import String Ascii List Arith Lia QArith.
From Stdlib Require Import Permutation Sorted.
From stdpp Require Import gmap strings list fin_maps.

Local Open Scope string_scope.
Local Open Scope list_scope.
Local Open Scope nat_scope.

(** ** Python strings *)

Module PyStr.

(** [str.lower] on one code point below 256: A-Z and the upper-case
    Latin-1 letters (0xC0-0xDE without the multiplication sign 0xD7)
    move up by 32, every other code point is its own lower case. *)
Definition lower_char (c : ascii) : ascii :=
  let n := nat_of_ascii c in
  if ((65 <=? n) && (n <=? 90))
     || ((192 <=? n) && (n <=? 214))
     || ((216 <=? n) && (n <=? 222))
  then ascii_of_nat (n + 32) else c.

Fixpoint lower (s : string) : string :=
  match s with
  | EmptyString => EmptyString
  | String c s' => String (lower_char c) (lower s')
  end.

(** [str.isspace] on one code point below 256. *)
Definition isspace (c : ascii) : bool :=
  let n := nat_of_ascii c in
  ((9 <=? n) && (n <=? 13)) || ((28 <=? n) && (n <=? 32))
  || (n =? 133) || (n =? 160).

(** [str.split()] without a separator: maximal runs of non-whitespace.
    [cur] is the token being read, reversed. *)
Definition flush (cur : list ascii) (acc : list string) : list string :=
  match cur with
  | [] => acc
  | _ => acc ++ [string_of_list_ascii (rev cur)]
  end.

Fixpoint split_from (s : string) (cur : list ascii) (acc : list string)
  : list string :=
  match s with
  | EmptyString => flush cur acc
  | String c s' =>
      if isspace c then split_from s' [] (flush cur acc)
      else split_from s' (c :: cur) acc
  end.

Definition split (s : string) : list string := split_from s [] [].

(** [sub in s] on strings: [sub] is a contiguous substring of [s]. *)
Fixpoint contains (sub s : string) : bool :=
  String.prefix sub s
  || match s with
     | EmptyString => false
     | String _ s' => contains sub s'
     end.

(** [s[:n]] and [len(s)]. *)
Definition slice_to (n : nat) (s : string) : string := String.substring 0 n s.
Definition len (s : string) : nat := String.length s.

End PyStr.

Notation "sub '∈s' s" := (PyStr.contains sub s) (at level 65, no associativity).

(** ** Values, documents, state *)

(** Values of open type ([Any]): what [json.loads] produces, floats apart. *)
#[warnings="-register-all"] Inductive value : Type :=
| VNone
| VBool (b : bool)
| VInt (z : Z)
| VStr (s : string)
| VList (l : list value)
| VDict (d : gmap string value).

(** [type(v).__name__] *)
Definition type_name (v : value) : string :=
  match v with
  | VNone => "NoneType"
  | VBool _ => "bool"
  | VInt _ => "int"
  | VStr _ => "str"
  | VList _ => "list"
  | VDict _ => "dict"
  end.

(** Exceptions (all subclasses of [Exception]); [str(e)] is [exn_msg]. *)
Inductive exn_class := AttributeError | KeyError | IndexError.
Record exn := Exn { exn_cls : exn_class; exn_msg : string }.

(** A stored document: the dict [{'content': ..., 'meta': ...}] that
    [add_documents] builds. *)
Record Doc := { content : value; meta : value }.

(** [self] of SimpleNetworkingRAG. *)
Record rag := {
  documents : list Doc;
  knowledge_base : gmap string (list string)
}.

(** An entry of the list [_find_relevant_documents] returns. *)
Record RankedDocument := {
  r_content : string;
  relevance_score : nat;
  r_meta : value
}.

(** The dict returned by [query]; a key that a branch leaves out is [None]. *)
Record QueryResult := {
  success : bool;
  answer : string;
  confidence : Q;
  sources : list string;
  insights : list string;
  retrieved_documents : option (list RankedDocument);
  error : option string
}.

(** The dict returned by [add_documents]. *)
Record AddResult := {
  a_success : bool;
  a_count : nat;
  a_total_documents : option nat;
  a_error : option string
}.

(** ** State and exception monad *)

Definition M (A : Type) : Type := rag -> rag * (exn + A).

#[global] Instance M_ret : MRet M := fun A (a : A) st => (st, inr a).

#[global] Instance M_bind : MBind M := fun A B (k : A -> M B) (m : M A) st =>
  match m st with
  | (st', inl e) => (st', inl e)
  | (st', inr a) => k a st'
  end.

Definition raise {A} (e : exn) : M A := fun st => (st, inl e).

Definition get_self : M rag := fun st => (st, inr st).

(** [try: body  except Exception as e: handler(e)]; what the body did to
    the state before it raised stays done. *)
Definition try_except {A} (body : M A) (handler : exn -> M A) : M A :=
  fun st =>
    match body st with
    | (st', inl e) => handler e st'
    | (st', inr a) => (st', inr a)
    end.

(** [for x in l: acc = body(acc, x)] *)
Fixpoint for_loop {A B} (l : list A) (body : B -> A -> M B) (acc : B) : M B :=
  match l with
  | [] => mret acc
  | x :: l' => acc' ← body acc x; for_loop l' body acc'
  end.

(** [l[i]] on a list *)
Definition getitem (l : list string) (i : nat) : M string :=
  match l !! i with
  | Some x => mret x
  | None => raise (Exn IndexError "list index out of range")
  end.

(** The exception of [v.attr] on a value that has no such attribute. *)
Definition no_attribute (v : value) (attr : string) : exn :=
  Exn AttributeError
    ("'" +:+ type_name v +:+ "' object has no attribute '" +:+ attr +:+ "'").

(** ** SimpleNetworkingRAG *)

(** [__init__]: the four category lists of [self.knowledge_base]. *)
Definition networking_strategies : list string :=
  [ "Focus on building authentic, mutually beneficial relationships rather than transactional connections.";
    "Leverage warm introductions through mutual connections for higher success rates.";
    "Participate actively in industry events and professional communities.";
    "Share valuable insights and expertise to establish thought leadership.";
    "Follow up consistently but respectfully with new connections." ].

Definition introduction_techniques : list string :=
  [ "Research common interests and mutual connections before reaching out.";
    "Craft personalized messages that clearly articulate mutual value.";
    "Keep initial contact messages concise and professional.";
    "Suggest specific ways you can provide value to the target contact.";
    "Always thank the introducer and keep them informed of outcomes." ].

Definition industry_insights : list string :=
  [ "Technology sector values innovation and rapid adaptation.";
    "Finance industry prioritizes trust and regulatory compliance.";
    "Healthcare focuses on patient outcomes and regulatory standards.";
    "Consulting emphasizes problem-solving and client relationships." ].

Definition connection_analysis : list string :=
  [ "Strong connections show regular interaction patterns and mutual engagement.";
    "Weak ties can be valuable for accessing new information and opportunities.";
    "Connection strength correlates with response rates and collaboration success.";
    "Geographic proximity often enhances professional relationship development." ].

Definition initial_knowledge_base : gmap string (list string) :=
  <["networking_strategies" := networking_strategies]>
  (<["introduction_techniques" := introduction_techniques]>
  (<["industry_insights" := industry_insights]>
  (<["connection_analysis" := connection_analysis]> ∅))).

Definition init : rag :=
  {| documents := []; knowledge_base := initial_knowledge_base |}.

(** [self.documents.append(d)] *)
Definition documents_append (d : Doc) : M unit :=
  fun st => ({| documents := documents st ++ [d];
                knowledge_base := knowledge_base st |}, inr tt).

(** The dict [{'content': doc.get('content', ''), 'meta': doc.get('meta', {})}]
    that [add_documents] stores for an input document. *)
Definition stored_doc (doc : gmap string value) : Doc :=
  {| content := default (VStr "") (doc !! "content");
     meta := default (VDict ∅) (doc !! "meta") |}.

(** [add_documents]; an input document is a dict from keys to values. *)
Definition add_documents (docs : list (gmap string value)) : M AddResult :=
  try_except
    (for_loop docs (fun _ doc => documents_append (stored_doc doc)) tt;;
     self ← get_self;
     mret {| a_success := true;
            a_count := length docs;
            a_total_documents := Some (length (documents self));
            a_error := None |})
    (fun e =>
       mret {| a_success := false;
              a_count := 0;
              a_total_documents := None;
              a_error := Some (exn_msg e) |}).

(** [sum(1 for term in search_terms if term in content)] *)
Fixpoint count_terms (search_terms : list string) (content : string) : nat :=
  match search_terms with
  | [] => 0
  | term :: rest =>
      (if term ∈s content then 1 else 0) + count_terms rest content
  end.

(** [sorted(l, key=key, reverse=True)]: Python's sort is stable, also with
    [reverse=True]; an element goes in front of the elements that follow
    it in the input and whose key is not larger. *)
Fixpoint insert_reverse {A} (key : A -> nat) (x : A) (l : list A) : list A :=
  match l with
  | [] => [x]
  | y :: l' =>
      if key x <? key y then y :: insert_reverse key x l' else x :: y :: l'
  end.

Definition sorted_reverse {A} (key : A -> nat) (l : list A) : list A :=
  foldr (insert_reverse key) [] l.

(** The body of the loop of [_find_relevant_documents];
    [doc['content'].lower()] raises unless the content is a [str]. *)
Definition find_relevant_step (search_terms : list string)
    (relevant : list RankedDocument) (doc : Doc) : M (list RankedDocument) :=
  match content doc with
  | VStr c =>
      let content := PyStr.lower c in
      let score := count_terms search_terms content in
      if 0 <? score then
        mret (relevant ++
              [ {| r_content :=
                     if 200 <? PyStr.len c
                     then PyStr.slice_to 200 c +:+ "..." else c;
                   relevance_score := score;
                   r_meta := meta doc |} ])
      else mret relevant
  | v => raise (no_attribute v "lower")
  end.

Definition _find_relevant_documents (question context : string)
  : M (list RankedDocument) :=
  let search_terms := PyStr.split (PyStr.lower question) in
  self ← get_self;
  relevant ← for_loop (documents self) (find_relevant_step search_terms) [];
  mret (sorted_reverse relevance_score relevant).

(** [_extract_industry_context]: the first industry, in list order, that
    occurs in the lower-cased [f"{question} {context}"]. *)
Definition industries : list string :=
  [ "technology"; "finance"; "healthcare"; "consulting"; "tech"; "fintech" ].

Fixpoint first_industry (l : list string) (text : string) : string :=
  match l with
  | [] => "general"
  | industry :: l' =>
      if industry ∈s text then industry else first_industry l' text
  end.

Definition _extract_industry_context (question context : string) : string :=
  let text := PyStr.lower (question +:+ " " +:+ context) in
  first_industry industries text.

(** [next((x for x in l if p(x)), dflt)] *)
Fixpoint next_or {A} (p : A -> bool) (l : list A) (dflt : A) : A :=
  match l with
  | [] => dflt
  | x :: l' => if p x then x else next_or p l' dflt
  end.

(** [_generate_answer]; [knowledge[i]] raises when the list is too short,
    and the default [knowledge[0]] of [next] is evaluated before the search. *)
Definition _generate_answer (question context query_type : string)
    (knowledge : list string) : M string :=
  if String.eqb query_type "networking_strategy" then
    if "company" ∈s PyStr.lower question then
      k0 ← getitem knowledge 0;
      mret ("When networking within a specific company, focus on identifying key decision-makers and building relationships through shared professional interests. "
            +:+ k0 +:+
            " Research the company culture and recent developments to find relevant conversation starters.")
    else
      k0 ← getitem knowledge 0;
      k1 ← getitem knowledge 1;
      mret (k0 +:+ " " +:+ k1 +:+
            " Consider your specific goals and target audience when developing your approach.")
  else if String.eqb query_type "introduction_advice" then
    k0 ← getitem knowledge 0;
    k1 ← getitem knowledge 1;
    mret ("For effective introductions, " +:+ k0 +:+ " " +:+ k1 +:+
          " Remember that successful introductions create value for all parties involved.")
  else if String.eqb query_type "industry_insights" then
    let industry_context := _extract_industry_context question context in
    k0 ← getitem knowledge 0;
    let relevant_insight :=
      next_or (fun insight =>
                 PyStr.lower industry_context ∈s PyStr.lower insight)
              knowledge k0 in
    mret ("Based on industry analysis: " +:+ relevant_insight +:+
          " Consider how this applies to your specific networking objectives.")
  else if String.eqb query_type "connection_analysis" then
    k0 ← getitem knowledge 0;
    k2 ← getitem knowledge 2;
    mret ("Connection analysis shows: " +:+ k0 +:+ " " +:+ k2 +:+
          " Use these insights to prioritize your outreach efforts.")
  else
    k0 ← getitem knowledge 0;
    mret ("Based on professional networking best practices: " +:+ k0).

(** [_extract_insights]: the dict literal [base_insights] and its lookup. *)
Definition networking_strategy_insights : list string :=
  [ "Prioritize quality over quantity in professional relationships";
    "Leverage existing connections for warm introductions";
    "Engage consistently with your professional network" ].

Definition introduction_advice_insights : list string :=
  [ "Research thoroughly before making contact";
    "Clearly articulate mutual value propositions";
    "Follow professional introduction etiquette" ].

Definition industry_insights_insights : list string :=
  [ "Stay current with industry trends and developments";
    "Identify key influencers and thought leaders";
    "Participate in relevant professional communities" ].

Definition connection_analysis_insights : list string :=
  [ "Monitor relationship strength indicators";
    "Track engagement patterns over time";
    "Focus on connections with highest potential value" ].

Definition base_insights : gmap string (list string) :=
  <["networking_strategy" := networking_strategy_insights]>
  (<["introduction_advice" := introduction_advice_insights]>
  (<["industry_insights" := industry_insights_insights]>
  (<["connection_analysis" := connection_analysis_insights]> ∅))).

Definition _extract_insights (question query_type : string)
    (knowledge : list string) : list string :=
  default networking_strategy_insights (base_insights !! query_type).

(** [self.knowledge_base[key]] *)
Definition knowledge_base_getitem (key : string) : M (list string) :=
  self ← get_self;
  match knowledge_base self !! key with
  | Some l => mret l
  | None => raise (Exn KeyError ("'" +:+ key +:+ "'"))
  end.

(** The [try] block of [query]. The default argument of [.get], which is
    [self.knowledge_base['networking_strategies']], is evaluated first. *)
Definition query_body (question context query_type : string) : M QueryResult :=
  dflt ← knowledge_base_getitem "networking_strategies";
  self ← get_self;
  let relevant_knowledge := default dflt (knowledge_base self !! query_type) in
  relevant_docs ← _find_relevant_documents question context;
  answer ← _generate_answer question context query_type relevant_knowledge;
  let insights := _extract_insights question query_type relevant_knowledge in
  mret {| success := true;
          answer := answer;
          confidence := 0.85;
          sources := [ "Networking knowledge base - " +:+ query_type ];
          insights := insights;
          retrieved_documents := Some (take 3 relevant_docs);
          error := None |}.

(** The [except] block of [query]. *)
Definition query_failure (e : exn) : QueryResult :=
  {| success := false;
     error := Some (exn_msg e);
     answer := "";
     confidence := 0.0;
     sources := [];
     insights := [];
     retrieved_documents := None |}.

Definition query (question context query_type : string) : M QueryResult :=
  try_except (query_body question context query_type)
             (fun e => mret (query_failure e)).

(** [get_stats]: the two counts it reports. *)
Definition get_stats : M (nat * nat) :=
  self ← get_self;
  mret (length (documents self), size (knowledge_base self)).

(** ** NetworkingRAGPipeline.extract_insights (phrase triggers) *)

Definition extract_insights (response query_type : string) : list string :=
  let r := PyStr.lower response in
  let insights := [] in
  let insights :=
    if "warm introduction" ∈s r
    then insights ++ ["Leverage warm introductions"] else insights in
  let insights :=
    if "mutual" ∈s r
    then insights ++ ["Focus on mutual connections"] else insights in
  let insights :=
    if "value" ∈s r
    then insights ++ ["Lead with value proposition"] else insights in
  let insights :=
    if ("follow up" ∈s r) || ("follow-up" ∈s r)
    then insights ++ ["Maintain consistent follow-up"] else insights in
  let insights :=
    if "authentic" ∈s r
    then insights ++ ["Build authentic relationships"] else insights in
  let insights :=
    if "industry" ∈s r
    then insights ++ ["Consider industry context"] else insights in
  let insights :=
    if "timing" ∈s r
    then insights ++ ["Optimize outreach timing"] else insights in
  take 5 insights.

(** ** Running a method *)

(** What a method returns or raises, and the state it leaves. *)
Definition result_of {A} (m : M A) (st : rag) : exn + A := snd (m st).
Definition state_after {A} (m : M A) (st : rag) : rag := fst (m st).

(** Stores of text documents: what [add_documents] builds from documents
    whose content is a string, on top of the constructor's knowledge base. *)
Definition text_doc (d : string * value) : Doc :=
  {| content := VStr d.1; meta := d.2 |}.

(** The state after the constructor and the ingestion of [tds]. *)
Definition rag_of (tds : list (string * value)) : rag :=
  {| documents := text_doc <$> tds; knowledge_base := initial_knowledge_base |}.

(** The input dict of a text document. *)
Definition doc_dict (d : string * value) : gmap string value :=
  <["content" := VStr d.1]> {[ "meta" := d.2 ]}.

(** The score the retrieval loop gives to a text content. *)
Definition doc_score (question content : string) : nat :=
  count_terms (PyStr.split (PyStr.lower question)) (PyStr.lower content).

(** The entry the retrieval loop appends for a text document. *)
Definition rank (question : string) (d : string * value) : RankedDocument :=
  {| r_content :=
       if 200 <? PyStr.len d.1 then PyStr.slice_to 200 d.1 +:+ "..." else d.1;
     relevance_score := doc_score question d.1;
     r_meta := d.2 |}.

(** ** Definitions used to state the properties *)

(** Descending order of keys. *)
Definition desc {A} (key : A -> nat) (a b : A) : Prop := key b <= key a.

(** The list [query] passes on as [relevant_knowledge] when the knowledge
    base is the constructor's. *)
Definition knowledge_for (query_type : string) : list string :=
  default networking_strategies (initial_knowledge_base !! query_type).

(** The text [_generate_answer] returns when [knowledge] has the entries
    the chosen template reads. *)
Definition answer_text (question context query_type : string)
    (knowledge : list string) : string :=
  let k i := default "" (knowledge !! i) in
  if String.eqb query_type "networking_strategy" then
    if "company" ∈s PyStr.lower question then
      "When networking within a specific company, focus on identifying key decision-makers and building relationships through shared professional interests. "
      +:+ k 0 +:+
      " Research the company culture and recent developments to find relevant conversation starters."
    else
      k 0 +:+ " " +:+ k 1 +:+
      " Consider your specific goals and target audience when developing your approach."
  else if String.eqb query_type "introduction_advice" then
    "For effective introductions, " +:+ k 0 +:+ " " +:+ k 1 +:+
    " Remember that successful introductions create value for all parties involved."
  else if String.eqb query_type "industry_insights" then
    "Based on industry analysis: "
    +:+ next_or (fun insight =>
                   PyStr.lower (_extract_industry_context question context)
                   ∈s PyStr.lower insight) knowledge (k 0)
    +:+ " Consider how this applies to your specific networking objectives."
  else if String.eqb query_type "connection_analysis" then
    "Connection analysis shows: " +:+ k 0 +:+ " " +:+ k 2 +:+
    " Use these insights to prioritize your outreach efforts."
  else
    "Based on professional networking best practices: " +:+ k 0.

(** The score as the specification words it: the number of distinct tokens
    of the lower-cased, whitespace-split question that occur in the
    lower-cased content. *)
Definition spec_score (question content : string) : nat :=
  length (filter (fun t => t ∈s PyStr.lower content)
                 (remove_dups (PyStr.split (PyStr.lower question)))).

(** How often [t] occurs in the token list. *)
Definition multiplicity (tokens : list string) (t : string) : nat :=
  length (filter (fun u => u = t) tokens).

(** The specification's reading of the score, at one question and one
    stored text document. *)
Definition score_is_distinct_count (q : string) (d : string * value) : Prop :=
  forall found rd,
    result_of (_find_relevant_documents q "") (rag_of [d]) = inr found ->
    rd ∈ found -> relevance_score rd = spec_score q d.1.

(** A computation that returns in the state it was started in. *)
Definition read_only {A} (m : M A) : Prop := forall st, (m st).1 = st.

Create HintDb frame.

(** [out] displays the content [c]: [c] itself when it has at most 200
    characters, else its first 200 characters followed by the ellipsis. *)
Definition display_of (c out : string) : Prop :=
  if decide (PyStr.len c <= 200) then out = c
  else exists p, PyStr.len p = 200 /\ String.prefix p c = true
                 /\ out = p +:+ "...".

(** [rd] is the entry shown for the stored text document [d]. *)
Definition entry_of (q : string) (d : string * value) (rd : RankedDocument)
  : Prop :=
  relevance_score rd = doc_score q d.1 /\ r_meta rd = d.2
  /\ display_of d.1 (r_content rd).

(** The length of [retrieved_documents], 0 when the key is absent. *)
Definition retrieved_length (r : QueryResult) : nat :=
  match retrieved_documents r with Some l => length l | None => 0 end.

(** A failure result as the specification words it: success false,
    confidence 0.0, a non-empty answer placeholder, the failure message in
    [error], and every field of the result present. *)
Definition spec_failure_result (e : exn) (r : QueryResult) : Prop :=
  success r = false /\ confidence r = 0.0%Q /\ answer r <> ""
  /\ error r = Some (exn_msg e) /\ is_Some (retrieved_documents r).

(** The specification's reading of the failure path, at one state and one
    query. *)
Definition failure_converted_as_specified
    (st : rag) (q c t : string) : Prop :=
  forall e, result_of (query_body q c t) st = inl e ->
    exists r, result_of (query q c t) st = inr r /\ spec_failure_result e r.

(** A store that holds a document whose content is JSON [null]. *)
Definition null_content_store : rag :=
  state_after (add_documents [ {[ "content" := VNone ]} ]) init.






(** The operations a caller can run on the store. *)
Inductive op :=
| OpAdd (docs : list (gmap string value))
| OpQuery (question context query_type : string)
| OpStats.

(** Running one operation, and a sequence of them, from a state. *)
Definition run_op (st : rag) (o : op) : rag :=
  match o with
  | OpAdd docs => state_after (add_documents docs) st
  | OpQuery q c t => state_after (query q c t) st
  | OpStats => state_after get_stats st
  end.

Definition run_ops (st : rag) (os : list op) : rag := foldl run_op st os.

(** What is stored for an input document: its content and meta, the empty
    string and the empty dict standing in for a missing key. *)
Definition stored_as (doc : gmap string value) (d : Doc) : Prop :=
  match doc !! "content" with
  | Some v => content d = v
  | None => content d = VStr ""
  end /\
  match doc !! "meta" with
  | Some m => meta d = m
  | None => meta d = VDict ∅
  end.

(** The trigger table of the phrase-trigger strategy: the phrases looked
    for, and the insight appended when one of them is present. *)
Definition triggers : list (list string * string) :=
  [ (["warm introduction"], "Leverage warm introductions");
    (["mutual"], "Focus on mutual connections");
    (["value"], "Lead with value proposition");
    (["follow up"; "follow-up"], "Maintain consistent follow-up");
    (["authentic"], "Build authentic relationships");
    (["industry"], "Consider industry context");
    (["timing"], "Optimize outreach timing") ].

(** One of the phrases of [tr] occurs in the lower-cased response. *)
Definition triggered (response : string) (tr : list string * string) : bool :=
  existsb (fun phrase => phrase ∈s PyStr.lower response) tr.1.

(** The lists of the category-default strategy. *)
Definition category_insight_lists : list (list string) :=
  [ networking_strategy_insights; introduction_advice_insights;
    industry_insights_insights; connection_analysis_insights ].

(** ** Further definitions: ingestion of arbitrary lists, statistics *)

(** [add_documents] on a list whose elements are of open type:
    [doc.get] raises on an element that is not a dict, and the [except]
    block answers with what was appended so far left in place. *)
Definition add_documents_values (docs : list value) : M AddResult :=
  try_except
    (for_loop docs
       (fun _ doc =>
          match doc with
          | VDict d => documents_append (stored_doc d)
          | v => raise (no_attribute v "get")
          end) tt;;
     self ← get_self;
     mret {| a_success := true;
             a_count := length docs;
             a_total_documents := Some (length (documents self));
             a_error := None |})
    (fun e =>
       mret {| a_success := false;
               a_count := 0;
               a_total_documents := None;
               a_error := Some (exn_msg e) |}).

(** A value that is a string. *)
Definition is_str (v : value) : bool :=
  match v with VStr _ => true | _ => false end.

(** A value that is a dict. *)
Definition is_dict (v : value) : bool :=
  match v with VDict _ => true | _ => false end.

(** The number of documents a sequence of operations asks to add. *)
Definition added_count (os : list op) : nat :=
  sum_list_with (fun o => match o with OpAdd docs => length docs | _ => 0 end) os.

(** The sentences [query] can answer with when the knowledge base is the
    constructor's. *)
Definition possible_answers : list string :=
  [ "When networking within a specific company, focus on identifying key decision-makers and building relationships through shared professional interests. Focus on building authentic, mutually beneficial relationships rather than transactional connections. Research the company culture and recent developments to find relevant conversation starters.";
    "Focus on building authentic, mutually beneficial relationships rather than transactional connections. Leverage warm introductions through mutual connections for higher success rates. Consider your specific goals and target audience when developing your approach.";
    "For effective introductions, Focus on building authentic, mutually beneficial relationships rather than transactional connections. Leverage warm introductions through mutual connections for higher success rates. Remember that successful introductions create value for all parties involved.";
    "Based on industry analysis: Technology sector values innovation and rapid adaptation. Consider how this applies to your specific networking objectives.";
    "Based on industry analysis: Finance industry prioritizes trust and regulatory compliance. Consider how this applies to your specific networking objectives.";
    "Based on industry analysis: Healthcare focuses on patient outcomes and regulatory standards. Consider how this applies to your specific networking objectives.";
    "Based on industry analysis: Consulting emphasizes problem-solving and client relationships. Consider how this applies to your specific networking objectives.";
    "Connection analysis shows: Strong connections show regular interaction patterns and mutual engagement. Connection strength correlates with response rates and collaboration success. Use these insights to prioritize your outreach efforts.";
    "Based on professional networking best practices: Focus on building authentic, mutually beneficial relationships rather than transactional connections.";
    "Based on professional networking best practices: Research common interests and mutual connections before reaching out." ].

(** ** Facts about the monad *)

Section Monad_facts.

Lemma run_bind {A B} (m : M A) (k : A -> M B) st :
  (m ≫= k) st =
  match m st with
  | (st', inl e) => (st', inl e)
  | (st', inr a) => k a st'
  end.
Proof. reflexivity. Qed.

Lemma run_ret {A} (a : A) st : (mret a : M A) st = (st, inr a).
Proof. reflexivity. Qed.

(** A loop whose body keeps the state keeps the state. *)
Lemma for_loop_frame {A B} (body : B -> A -> M B) (l : list A) :
  (forall acc x st, (body acc x st).1 = st) ->
  forall acc st, (for_loop l body acc st).1 = st.
Proof.
  intros Hbody. induction l as [|x l IH]; intros acc st; cbn.
  - reflexivity.
  - rewrite run_bind. specialize (Hbody acc x st).
    destruct (body acc x st) as [st' [e|acc']]; cbn in *; subst.
    + reflexivity.
    + apply IH.
Qed.

Lemma try_except_total {A} (body : M A) (h : exn -> A) st :
  exists st' a, try_except body (fun e => mret (h e)) st = (st', inr a).
Proof.
  unfold try_except. destruct (body st) as [st' [e|a]]; eauto.
Qed.

End Monad_facts.

(** ** Facts about [sorted(..., reverse=True)] *)

Section Sorted_reverse.
Context {A : Type} (key : A -> nat).

Lemma insert_reverse_perm x l : insert_reverse key x l ≡ₚ x :: l.
Proof.
  induction l as [|y l IH]; cbn [insert_reverse]; [reflexivity|].
  destruct (key x <? key y); [|reflexivity].
  rewrite IH. apply Permutation_swap.
Qed.

Lemma sorted_reverse_perm l : sorted_reverse key l ≡ₚ l.
Proof.
  induction l as [|x l IH]; cbn; [reflexivity|].
  fold (sorted_reverse key l). rewrite insert_reverse_perm, IH. reflexivity.
Qed.

Lemma insert_reverse_sorted x l :
  StronglySorted (desc key) l -> StronglySorted (desc key) (insert_reverse key x l).
Proof.
  induction 1 as [|y l Hs IH Hy]; cbn [insert_reverse].
  - repeat constructor.
  - destruct (Nat.ltb_spec (key x) (key y)) as [Hlt|Hge].
    + constructor; [exact IH|].
      rewrite insert_reverse_perm. constructor; [unfold desc; lia|exact Hy].
    + constructor; [constructor; assumption|].
      constructor; [exact Hge|].
      eapply Forall_impl; [exact Hy|]. unfold desc. intros z Hz. lia.
Qed.

Lemma sorted_reverse_sorted l : StronglySorted (desc key) (sorted_reverse key l).
Proof.
  induction l as [|x l IH]; cbn; [constructor|].
  apply insert_reverse_sorted, IH.
Qed.

(** Stability: among the elements of one key, the input order is kept. *)
Lemma insert_reverse_stable k x l :
  filter (fun a => key a = k) (insert_reverse key x l)
  = filter (fun a => key a = k) (x :: l).
Proof.
  induction l as [|y l IH]; cbn [insert_reverse]; [reflexivity|].
  destruct (Nat.ltb_spec (key x) (key y)) as [Hlt|Hge]; [|reflexivity].
  rewrite filter_cons, IH, !filter_cons.
  repeat case_decide; try reflexivity. lia.
Qed.

Lemma sorted_reverse_stable k l :
  filter (fun a => key a = k) (sorted_reverse key l)
  = filter (fun a => key a = k) l.
Proof.
  induction l as [|x l IH]; cbn; [reflexivity|].
  fold (sorted_reverse key l).
  rewrite insert_reverse_stable, !filter_cons, IH. reflexivity.
Qed.

End Sorted_reverse.

Lemma sorted_reverse_fmap {A B} (f : A -> B) (key : B -> nat) (l : list A) :
  sorted_reverse key (f <$> l) = f <$> sorted_reverse (fun a => key (f a)) l.
Proof.
  induction l as [|x l IH]; cbn; [reflexivity|].
  fold (sorted_reverse key (f <$> l)). fold (sorted_reverse (fun a => key (f a)) l).
  rewrite IH. generalize (sorted_reverse (fun a => key (f a)) l) as s.
  induction s as [|y s IHs]; cbn [insert_reverse fmap list_fmap]; [reflexivity|].
  destruct (key (f x) <? key (f y)); cbn [fmap list_fmap]; [rewrite IHs|]; reflexivity.
Qed.

(** ** Facts about strings *)

Lemma slice_to_prefix n s : String.prefix (PyStr.slice_to n s) s = true.
Proof.
  unfold PyStr.slice_to. revert n.
  induction s as [|c s IH]; intros [|n]; cbn; try reflexivity.
  rewrite IH. destruct (ascii_dec c c); [reflexivity|contradiction].
Qed.

Lemma slice_to_len n s :
  n <= PyStr.len s -> PyStr.len (PyStr.slice_to n s) = n.
Proof.
  unfold PyStr.slice_to, PyStr.len. revert n.
  induction s as [|c s IH]; intros [|n] Hn; cbn in *; try reflexivity; try lia.
  rewrite IH; [reflexivity|lia].
Qed.


(** ** Facts about the knowledge base and the answer templates *)

Lemma knowledge_for_cases t :
  knowledge_for t =
  if decide (t = "introduction_techniques") then introduction_techniques
  else if decide (t = "industry_insights") then industry_insights
  else if decide (t = "connection_analysis") then connection_analysis
  else networking_strategies.
Proof.
  unfold knowledge_for, initial_knowledge_base.
  rewrite !lookup_insert, lookup_empty.
  repeat case_decide; subst; try reflexivity; try congruence.
Qed.

Lemma knowledge_for_long t :
  exists k0 k1 k2 k3 rest, knowledge_for t = k0 :: k1 :: k2 :: k3 :: rest.
Proof.
  rewrite knowledge_for_cases. repeat case_decide; repeat eexists.
Qed.

Lemma generate_answer_run q c t k0 k1 k2 rest st :
  _generate_answer q c t (k0 :: k1 :: k2 :: rest) st
  = (st, inr (answer_text q c t (k0 :: k1 :: k2 :: rest))).
Proof.
  unfold _generate_answer, answer_text.
  repeat (match goal with |- context [if ?b then _ else _] => destruct b end);
    reflexivity.
Qed.

(** ** Facts about the two loops *)

Lemma add_loop_run docs st :
  for_loop docs (fun _ doc => documents_append (stored_doc doc)) tt st
  = ({| documents := documents st ++ (stored_doc <$> docs);
        knowledge_base := knowledge_base st |}, inr tt).
Proof.
  revert st. induction docs as [|d docs IH]; intros st; cbn.
  - rewrite app_nil_r. destruct st; reflexivity.
  - rewrite run_bind. unfold documents_append at 1. rewrite IH. cbn.
    rewrite <- app_assoc. reflexivity.
Qed.

Lemma find_loop_text q tds acc st :
  for_loop (text_doc <$> tds)
           (find_relevant_step (PyStr.split (PyStr.lower q))) acc st
  = (st, inr (acc ++ (rank q <$> filter (fun d => 0 < doc_score q d.1) tds))).
Proof.
  revert acc. induction tds as [|d tds IH]; intros acc.
  - cbn. rewrite app_nil_r. reflexivity.
  - rewrite fmap_cons, filter_cons. cbn [for_loop]. rewrite run_bind.
    unfold find_relevant_step at 1. cbn [text_doc content meta].
    fold (doc_score q d.1).
    destruct (Nat.ltb_spec 0 (doc_score q d.1)) as [Hpos|Hzero].
    + rewrite run_ret, IH, decide_True by exact Hpos.
      rewrite fmap_cons, <- app_assoc. reflexivity.
    + rewrite run_ret, IH, decide_False by lia. reflexivity.
Qed.

(** What [_find_relevant_documents] returns on a store of text documents. *)
Lemma find_relevant_text q c tds kb :
  _find_relevant_documents q c
    {| documents := text_doc <$> tds; knowledge_base := kb |}
  = ({| documents := text_doc <$> tds; knowledge_base := kb |},
     inr (sorted_reverse relevance_score
            (rank q <$> filter (fun d => 0 < doc_score q d.1) tds))).
Proof.
  unfold _find_relevant_documents. rewrite run_bind. cbn.
  rewrite run_bind, find_loop_text. reflexivity.
Qed.

Lemma knowledge_base_getitem_initial docs :
  knowledge_base_getitem "networking_strategies"
    {| documents := docs; knowledge_base := initial_knowledge_base |}
  = ({| documents := docs; knowledge_base := initial_knowledge_base |},
     inr networking_strategies).
Proof. reflexivity. Qed.

(** What the [try] block of [query] returns on a store of text documents. *)
Lemma query_body_text q c t tds :
  query_body q c t (rag_of tds)
  = (rag_of tds,
     inr {| success := true;
            answer := answer_text q c t (knowledge_for t);
            confidence := 0.85;
            sources := [ "Networking knowledge base - " +:+ t ];
            insights := _extract_insights q t (knowledge_for t);
            retrieved_documents :=
              Some (take 3 (sorted_reverse relevance_score
                      (rank q <$> filter (fun d => 0 < doc_score q d.1) tds)));
            error := None |}).
Proof.
  unfold query_body, rag_of.
  rewrite run_bind, knowledge_base_getitem_initial.
  rewrite run_bind. unfold get_self at 1.
  rewrite run_bind, find_relevant_text.
  cbn [knowledge_base]. fold (knowledge_for t).
  destruct (knowledge_for_long t) as (k0 & k1 & k2 & k3 & rest & Hk).
  rewrite run_bind, Hk, generate_answer_run. reflexivity.
Qed.

Lemma query_text q c t tds :
  query q c t (rag_of tds)
  = (rag_of tds,
     inr {| success := true;
            answer := answer_text q c t (knowledge_for t);
            confidence := 0.85;
            sources := [ "Networking knowledge base - " +:+ t ];
            insights := _extract_insights q t (knowledge_for t);
            retrieved_documents :=
              Some (take 3 (sorted_reverse relevance_score
                      (rank q <$> filter (fun d => 0 < doc_score q d.1) tds)));
            error := None |}).
Proof. unfold query, try_except. rewrite query_body_text. reflexivity. Qed.

(** ** C1: the relevance score *)

Lemma count_terms_filter l c :
  count_terms l c = length (filter (fun t => t ∈s c) l).
Proof.
  induction l as [|t l IH]; cbn [count_terms]; [reflexivity|].
  rewrite filter_cons, IH. destruct (t ∈s c); cbn; reflexivity.
Qed.

Lemma sum_list_with_zero {A} (f : A -> nat) (u : list A) :
  (forall t, t ∈ u -> f t = 0) -> sum_list_with f u = 0.
Proof.
  induction u as [|t u IH]; intros Hf; cbn; [reflexivity|].
  rewrite Hf, IH; [reflexivity| |left].
  intros t' Ht'. apply Hf. right. exact Ht'.
Qed.

Lemma sum_list_with_plus {A} (f g : A -> nat) (u : list A) :
  sum_list_with (fun t => f t + g t) u = sum_list_with f u + sum_list_with g u.
Proof. induction u as [|t u IH]; cbn; [reflexivity|]. rewrite IH. lia. Qed.

Lemma sum_list_with_indicator (p : string -> bool) (x : string) (u : list string) :
  NoDup u -> x ∈ u ->
  sum_list_with (fun t => if p t then if decide (t = x) then 1 else 0 else 0) u
  = if p x then 1 else 0.
Proof.
  induction 1 as [|t u Hnotin Hnd IH]; intros Hin.
  - inversion Hin.
  - cbn [sum_list_with]. apply elem_of_cons in Hin as [->|Hin].
    + rewrite decide_True by reflexivity.
      rewrite sum_list_with_zero; [destruct (p t); lia|].
      intros t' Ht'. destruct (p t'); [|reflexivity].
      case_decide; [subst; contradiction|reflexivity].
    + rewrite IH by exact Hin.
      destruct (p t); [|reflexivity].
      case_decide; [subst; contradiction|reflexivity].
Qed.

Lemma sum_list_with_ext {A} (f g : A -> nat) (u : list A) :
  (forall t, f t = g t) -> sum_list_with f u = sum_list_with g u.
Proof.
  intros Hfg. induction u as [|t u IH]; cbn; [reflexivity|].
  rewrite Hfg, IH. reflexivity.
Qed.

(** A count over a list, regrouped by distinct element. *)
Lemma filter_length_by_distinct (p : string -> bool) (l u : list string) :
  NoDup u -> (forall t, t ∈ l -> t ∈ u) ->
  length (filter (fun t => p t) l)
  = sum_list_with (fun t => if p t then multiplicity l t else 0) u.
Proof.
  intros Hnd. induction l as [|x l IH]; intros Hsub.
  - cbn. symmetry. apply sum_list_with_zero. intros t _. destruct (p t); reflexivity.
  - rewrite filter_cons.
    rewrite (sum_list_with_ext _
      (fun t => (if p t then if decide (t = x) then 1 else 0 else 0)
                + (if p t then multiplicity l t else 0))).
    + rewrite sum_list_with_plus, sum_list_with_indicator, <- IH.
      * destruct (p x); cbn; reflexivity.
      * intros t Ht. apply Hsub. right. exact Ht.
      * exact Hnd.
      * apply Hsub. left.
    + intros t. unfold multiplicity. rewrite filter_cons.
      destruct (p t); [|reflexivity].
      destruct (decide (x = t)), (decide (t = x)); subst; cbn;
        try reflexivity; congruence.
Qed.

Lemma filter_remove_dups_length (p : string -> bool) (l : list string) :
  length (filter (fun t => p t) (remove_dups l))
  <= length (filter (fun t => p t) l).
Proof.
  induction l as [|x l IH]; cbn [remove_dups]; [reflexivity|].
  rewrite (filter_cons _ x l).
  destruct (decide_rel elem_of x l).
  - destruct (decide (p x)); cbn [length]; lia.
  - rewrite filter_cons. destruct (decide (p x)); cbn [length]; lia.
Qed.

Lemma doc_score_filter q c :
  doc_score q c
  = length (filter (fun t => t ∈s PyStr.lower c) (PyStr.split (PyStr.lower q))).
Proof. apply count_terms_filter. Qed.

(** C1 (as amended): the score [_find_relevant_documents] attaches to a
    stored text document is the number of tokens of the lower-cased,
    whitespace-split question, each counted as often as the question repeats
    it, that occur as substrings of the lower-cased content. Occurring
    several times in the document adds nothing, but a token the question
    repeats k times contributes k; the score is at least the number of
    distinct matching tokens and at most the number of tokens. *)
Theorem C1_score_counts_question_tokens
    (q ctx : string) (tds : list (string * value)) :
  let tokens := PyStr.split (PyStr.lower q) in
  exists found,
    result_of (_find_relevant_documents q ctx) (rag_of tds) = inr found /\
    found ≡ₚ rank q <$> filter (fun d => 0 < doc_score q d.1) tds /\
    forall c m,
      relevance_score (rank q (c, m)) = doc_score q c /\
      doc_score q c
      = length (filter (fun t => t ∈s PyStr.lower c) tokens) /\
      doc_score q c
      = sum_list_with
          (fun t => if t ∈s PyStr.lower c then multiplicity tokens t else 0)
          (remove_dups tokens) /\
      spec_score q c <= doc_score q c <= length tokens.
Proof.
  intros tokens. eexists. split; [|split].
  - unfold result_of, rag_of. rewrite find_relevant_text. reflexivity.
  - apply sorted_reverse_perm.
  - intros c m. split; [reflexivity|]. split; [apply doc_score_filter|].
    split; [|split].
    + rewrite doc_score_filter.
      apply (filter_length_by_distinct (fun t => t ∈s PyStr.lower c)).
      * apply NoDup_remove_dups.
      * intros t Ht. apply elem_of_remove_dups. exact Ht.
    + rewrite doc_score_filter. unfold spec_score.
      apply (filter_remove_dups_length (fun t => t ∈s PyStr.lower c)).
    + rewrite doc_score_filter. apply length_filter.
Qed.

(** C1 as stated fails: the question "warm warm" scores the document
    "warm" 2, while one distinct token occurs in it. *)
Lemma C1_repeated_token_counted_twice :
  ~ score_is_distinct_count "warm warm" ("warm", VNone).
Proof.
  intros H.
  specialize (H [ {| r_content := "warm"; relevance_score := 2; r_meta := VNone |} ]
                {| r_content := "warm"; relevance_score := 2; r_meta := VNone |}
                eq_refl).
  cbn [relevance_score] in H.
  assert (Hs : spec_score "warm warm" ("warm", VNone).1 = 1) by (vm_compute; reflexivity).
  rewrite Hs in H. discriminate H. left.
Qed.

(** ** Read-only computations *)

Lemma read_only_ret {A} (a : A) : read_only (mret a : M A).
Proof. intros st. reflexivity. Qed.

Lemma read_only_raise {A} e : read_only (raise e : M A).
Proof. intros st. reflexivity. Qed.

Lemma read_only_get_self : read_only get_self.
Proof. intros st. reflexivity. Qed.

Lemma read_only_bind {A B} (m : M A) (k : A -> M B) :
  read_only m -> (forall a, read_only (k a)) -> read_only (m ≫= k).
Proof.
  intros Hm Hk st. rewrite run_bind. specialize (Hm st).
  destruct (m st) as [st' [e|a]]; cbn in *; subst; [reflexivity|apply Hk].
Qed.

Lemma read_only_try_except {A} (body : M A) (h : exn -> M A) :
  read_only body -> (forall e, read_only (h e)) -> read_only (try_except body h).
Proof.
  intros Hm Hh st. unfold try_except. specialize (Hm st).
  destruct (body st) as [st' [e|a]]; cbn in *; subst; [apply Hh|reflexivity].
Qed.

Lemma read_only_for_loop {A B} (l : list A) (body : B -> A -> M B) acc :
  (forall acc x, read_only (body acc x)) -> read_only (for_loop l body acc).
Proof.
  intros Hbody st. apply for_loop_frame. intros acc' x st'. apply Hbody.
Qed.

#[local] Hint Resolve read_only_ret read_only_raise read_only_get_self : frame.
#[local] Hint Extern 2 (read_only (mbind _ _)) =>
  apply read_only_bind; [|intros ?] : frame.
#[local] Hint Extern 2 (read_only (try_except _ _)) =>
  apply read_only_try_except; [|intros ?] : frame.
#[local] Hint Extern 2 (read_only (for_loop _ _ _)) =>
  apply read_only_for_loop; intros ? ? : frame.

Lemma read_only_getitem l i : read_only (getitem l i).
Proof. unfold getitem. destruct (l !! i); auto with frame. Qed.

Lemma read_only_knowledge_base_getitem key :
  read_only (knowledge_base_getitem key).
Proof.
  unfold knowledge_base_getitem. apply read_only_bind; [auto with frame|].
  intros self. destruct (knowledge_base self !! key); auto with frame.
Qed.

Lemma read_only_find_relevant_step terms acc doc :
  read_only (find_relevant_step terms acc doc).
Proof.
  unfold find_relevant_step.
  destruct (content doc); auto with frame.
  destruct (0 <? _); auto with frame.
Qed.

#[local] Hint Resolve read_only_getitem read_only_knowledge_base_getitem
  read_only_find_relevant_step : frame.

Lemma read_only_find_relevant_documents q c :
  read_only (_find_relevant_documents q c).
Proof. unfold _find_relevant_documents. auto 10 with frame. Qed.

Lemma read_only_generate_answer q c t k : read_only (_generate_answer q c t k).
Proof.
  unfold _generate_answer.
  repeat (match goal with |- context [if ?b then _ else _] => destruct b end);
    auto 10 with frame.
Qed.

#[local] Hint Resolve read_only_find_relevant_documents
  read_only_generate_answer : frame.

Lemma read_only_query_body q c t : read_only (query_body q c t).
Proof. unfold query_body. auto 12 with frame. Qed.

Lemma read_only_query q c t : read_only (query q c t).
Proof.
  unfold query. apply read_only_try_except; [apply read_only_query_body|].
  auto with frame.
Qed.

Lemma read_only_get_stats : read_only get_stats.
Proof. unfold get_stats. auto with frame. Qed.

(** What a result of the [try] block of [query] looks like, in any state. *)
Lemma query_body_success q c t st st' r :
  query_body q c t st = (st', inr r) ->
  success r = true /\ confidence r = 0.85%Q /\
  sources r = [ "Networking knowledge base - " +:+ t ] /\
  error r = None /\
  exists l, retrieved_documents r = Some (take 3 l).
Proof.
  unfold query_body. rewrite run_bind.
  destruct (knowledge_base_getitem _ st) as [st1 [e|dflt]]; [discriminate|].
  rewrite run_bind. unfold get_self at 1. rewrite run_bind.
  destruct (_find_relevant_documents q c st1) as [st2 [e|docs]]; [discriminate|].
  rewrite run_bind.
  destruct (_generate_answer _ _ _ _ st2) as [st3 [e|a]]; [discriminate|].
  rewrite run_ret. intros [= _ <-]. cbn. repeat split; eauto.
Qed.

(** ** C2: the retrieved-document list *)

Lemma rank_entry_of q d : entry_of q d (rank q d).
Proof.
  split; [reflexivity|]. split; [reflexivity|].
  unfold display_of, rank. cbn [r_content].
  destruct (Nat.ltb_spec 200 (PyStr.len d.1)) as [Hlong|Hshort].
  - rewrite decide_False by lia. exists (PyStr.slice_to 200 d.1).
    split; [apply slice_to_len; lia|]. split; [apply slice_to_prefix|reflexivity].
  - rewrite decide_True by lia. reflexivity.
Qed.

Lemma query_total q c t st : exists r, result_of (query q c t) st = inr r.
Proof.
  unfold result_of, query.
  destruct (try_except_total (query_body q c t) query_failure st) as (st' & r & ->).
  eauto.
Qed.

Lemma query_retrieved_bound q c t st r :
  result_of (query q c t) st = inr r -> retrieved_length r <= 3.
Proof.
  unfold result_of, query, try_except.
  destruct (query_body q c t st) as [st' [e|r']] eqn:Hbody; cbn.
  - intros [= <-]. cbn. lia.
  - intros [= <-]. apply query_body_success in Hbody as (_ & _ & _ & _ & l & Hl).
    unfold retrieved_length. rewrite Hl, length_take. lia.
Qed.

(** C2: on every store of text documents, [query] answers with the list
    obtained from the stored documents by dropping those of score zero,
    ordering the rest by descending score with equal scores kept in
    insertion order, displaying each content cut to 200 characters plus an
    ellipsis exactly when it was longer, and keeping the first 3; and in
    every state whatever, the list [query] returns has at most 3 entries. *)
Theorem C2_retrieved_documents (q ctx t : string) (tds : list (string * value)) :
  let by_score (d : string * value) := doc_score q d.1 in
  let survivors := filter (fun d => 0 < by_score d) tds in
  (exists r ordered shown,
      result_of (query q ctx t) (rag_of tds) = inr r /\
      ordered ≡ₚ survivors /\
      StronglySorted (desc by_score) ordered /\
      (forall k, filter (fun d => by_score d = k) ordered
                 = filter (fun d => by_score d = k) survivors) /\
      Forall2 (entry_of q) ordered shown /\
      retrieved_documents r = Some (take 3 shown) /\
      length (take 3 shown) <= 3) /\
  (forall st, exists r,
      result_of (query q ctx t) st = inr r /\ retrieved_length r <= 3).
Proof.
  intros by_score survivors. split.
  - eexists. exists (sorted_reverse by_score survivors).
    exists (rank q <$> sorted_reverse by_score survivors).
    split; [unfold result_of; rewrite query_text; reflexivity|].
    split; [apply sorted_reverse_perm|].
    split; [apply sorted_reverse_sorted|].
    split; [intros k; apply sorted_reverse_stable|].
    split; [|split].
    + apply Forall2_fmap_r, Forall_Forall2_diag, Forall_forall.
      intros d _. apply rank_entry_of.
    + cbn [retrieved_documents]. rewrite sorted_reverse_fmap. reflexivity.
    + rewrite length_take. lia.
  - intros st. destruct (query_total q ctx t st) as [r Hr].
    exists r. split; [exact Hr|]. eapply query_retrieved_bound, Hr.
Qed.

(** ** C3: failures inside [query] *)

(** C3 (as amended): in every state and for every question, context and
    category, [query] returns a result and raises nothing. When its body
    fails, the result has success false, confidence 0.0, the failure
    message in [error], an empty answer, empty sources and insights, and no
    [retrieved_documents] key; when its body succeeds, the result is the
    body's, with success true, a [retrieved_documents] list and no [error]
    key. *)
Theorem C3_query_converts_failures (q c t : string) (st : rag) :
  exists r,
    query q c t st = (st, inr r) /\
    match result_of (query_body q c t) st with
    | inl e =>
        r = {| success := false; answer := ""; confidence := 0.0;
               sources := []; insights := [];
               retrieved_documents := None;
               error := Some (exn_msg e) |}
    | inr r' =>
        r = r' /\ success r = true /\ error r = None
        /\ is_Some (retrieved_documents r)
    end.
Proof.
  pose proof (read_only_query_body q c t st) as Hst.
  unfold result_of, query, try_except.
  destruct (query_body q c t st) as [st' [e|r']] eqn:Hbody; cbn in Hst; subst st'.
  - eexists. split; reflexivity.
  - exists r'. split; [reflexivity|]. cbn.
    apply query_body_success in Hbody as (Hs & _ & _ & He & l & Hl).
    rewrite Hl. repeat split; eauto.
Qed.

(** C3 as stated fails: with a stored document of content [null], the
    body of [query] fails with an AttributeError, and the result returned
    has an empty answer and no [retrieved_documents] key. *)
Lemma C3_failure_result_not_as_specified :
  ~ failure_converted_as_specified null_content_store
      "warm introduction" "" "networking_strategy".
Proof.
  intros H.
  destruct (H (Exn AttributeError "'NoneType' object has no attribute 'lower'"))
    as (r & Hr & _ & _ & Hans & _).
  - vm_compute. reflexivity.
  - vm_compute in Hr. injection Hr as <-. apply Hans. reflexivity.
Qed.

(** ** C4: unrecognized categories *)






(** ** C5: industry detection and statement selection *)





(** ** C6: empty store, empty token set *)





(** ** C7: ingestion *)

Lemma add_documents_run docs st :
  add_documents docs st
  = ({| documents := documents st ++ (stored_doc <$> docs);
        knowledge_base := knowledge_base st |},
     inr {| a_success := true;
            a_count := length docs;
            a_total_documents := Some (length (documents st) + length docs);
            a_error := None |}).
Proof.
  unfold add_documents, try_except.
  rewrite run_bind, add_loop_run, run_bind. cbn.
  rewrite length_app, length_fmap. reflexivity.
Qed.

Lemma run_op_grows st o :
  documents st `prefix_of` documents (run_op st o)
  /\ knowledge_base (run_op st o) = knowledge_base st.
Proof.
  destruct o as [docs|q c t|]; cbn [run_op]; unfold state_after.
  - rewrite add_documents_run. cbn. split; [|reflexivity].
    eexists. reflexivity.
  - rewrite read_only_query. split; reflexivity.
  - rewrite read_only_get_stats. split; reflexivity.
Qed.

Lemma run_ops_grows os st :
  documents st `prefix_of` documents (run_ops st os)
  /\ knowledge_base (run_ops st os) = knowledge_base st.
Proof.
  revert st. induction os as [|o os IH]; intros st.
  - split; reflexivity.
  - change (run_ops st (o :: os)) with (run_ops (run_op st o) os).
    destruct (IH (run_op st o)) as [Hp Hk].
    destruct (run_op_grows st o) as [Hp' Hk'].
    split; [etrans; eassumption|congruence].
Qed.

(** C7: [add_documents] succeeds on every sequence of input documents; it
    appends one stored document per input, in order, with an empty content
    for an input without content; it reports the number of inputs and the
    store size before the call plus that number; and through any sequence
    of operations the store keeps everything it held. *)
Theorem C7_add_documents (docs : list (gmap string value)) (st : rag) :
  exists r added,
    result_of (add_documents docs) st = inr r /\
    a_success r = true /\
    a_count r = length docs /\
    a_total_documents r = Some (length (documents st) + a_count r) /\
    documents (state_after (add_documents docs) st) = documents st ++ added /\
    Forall2 stored_as docs added /\
    forall os, documents st `prefix_of` documents (run_ops st os).
Proof.
  exists {| a_success := true; a_count := length docs;
            a_total_documents := Some (length (documents st) + length docs);
            a_error := None |}.
  exists (stored_doc <$> docs).
  unfold result_of, state_after. rewrite add_documents_run. cbn.
  repeat split.
  - apply Forall2_fmap_r, Forall_Forall2_diag, Forall_forall.
    intros doc _. unfold stored_as, stored_doc. cbn.
    split; [destruct (doc !! "content")|destruct (doc !! "meta")]; reflexivity.
  - intros os. apply run_ops_grows.
Qed.

(** ** C8: the two insight strategies *)

Lemma extract_insights_by_table response t :
  extract_insights response t
  = take 5 (snd <$> filter (fun tr => triggered response tr) triggers).
Proof.
  unfold extract_insights, triggers, triggered.
  rewrite !filter_cons, filter_nil. cbn [existsb fst].
  rewrite !orb_false_r.
  destruct ("warm introduction" ∈s PyStr.lower response),
           ("mutual" ∈s PyStr.lower response),
           ("value" ∈s PyStr.lower response),
           (("follow up" ∈s PyStr.lower response)
            || ("follow-up" ∈s PyStr.lower response)),
           ("authentic" ∈s PyStr.lower response),
           ("industry" ∈s PyStr.lower response),
           ("timing" ∈s PyStr.lower response);
    reflexivity.
Qed.

Lemma extract_insights_cases q t k :
  _extract_insights q t k ∈ category_insight_lists.
Proof.
  unfold _extract_insights, base_insights, category_insight_lists.
  rewrite !lookup_insert, lookup_empty.
  repeat case_decide; cbn [default from_option];
    repeat first [left; reflexivity | right].
Qed.

(** C8: the phrase-trigger strategy returns the insights of the triggers
    present in the lower-cased response, in trigger-list order, cut to 5;
    the category-default strategy returns one of four fixed lists, whatever
    the question and the knowledge; both results have at most 5 entries and
    no entry twice. *)
Theorem C8_insights_bounded (response q t : string) (k : list string) :
  (extract_insights response t
   = take 5 (snd <$> filter (fun tr => triggered response tr) triggers)
   /\ extract_insights response t `sublist_of` (snd <$> triggers)
   /\ length (extract_insights response t) <= 5
   /\ NoDup (extract_insights response t))
  /\
  (_extract_insights q t k ∈ category_insight_lists
   /\ (forall q' k', _extract_insights q' t k' = _extract_insights q t k)
   /\ length (_extract_insights q t k) <= 5
   /\ NoDup (_extract_insights q t k)).
Proof.
  split.
  - assert (Hsub : extract_insights response t `sublist_of` (snd <$> triggers)).
    { rewrite extract_insights_by_table. etrans; [apply sublist_take|].
      apply fmap_sublist, sublist_filter. }
    split; [apply extract_insights_by_table|]. split; [exact Hsub|].
    split.
    + rewrite extract_insights_by_table, length_take. lia.
    + eapply sublist_NoDup; [|exact Hsub].
      apply (bool_decide_unpack _). vm_compute. reflexivity.
  - pose proof (extract_insights_cases q t k) as Hin.
    split; [exact Hin|]. split; [reflexivity|].
    unfold category_insight_lists in Hin.
    repeat (apply elem_of_cons in Hin as [->|Hin]);
      [| | | |inversion Hin];
      (split; [cbn; lia|apply (bool_decide_unpack _); vm_compute; reflexivity]).
Qed.

(** ** C9: [query] is read-only *)

(** C9: [query] returns in the state it was called in, whether it
    succeeds or fails: the stored documents and the knowledge base are the
    same; of the operations, only [add_documents] changes the state, and it
    changes the documents only. *)
Theorem C9_query_read_only (q c t : string) (st : rag) :
  state_after (query q c t) st = st /\
  documents (state_after (query q c t) st) = documents st /\
  knowledge_base (state_after (query q c t) st) = knowledge_base st /\
  forall o,
    match o with
    | OpAdd docs =>
        documents (run_op st o) = documents st ++ (stored_doc <$> docs)
        /\ knowledge_base (run_op st o) = knowledge_base st
    | _ => run_op st o = st
    end.
Proof.
  assert (H : state_after (query q c t) st = st) by apply read_only_query.
  rewrite H. repeat split.
  intros [docs|q' c' t'|]; cbn [run_op]; unfold state_after.
  - rewrite add_documents_run. split; reflexivity.
  - apply read_only_query.
  - apply read_only_get_stats.
Qed.

(** ** C10: the sources of a successful query *)

(** C10: in every state, a successful [query] has exactly one source, the
    string "Networking knowledge base - " followed by the category tag as
    passed; nothing of the stored or retrieved documents enters it. *)
Theorem C10_sources (q c t : string) (st : rag) (r : QueryResult) :
  result_of (query q c t) st = inr r ->
  success r = true ->
  sources r = [ "Networking knowledge base - " +:+ t ].
Proof.
  unfold result_of, query, try_except.
  destruct (query_body q c t st) as [st' [e|r']] eqn:Hbody; cbn.
  - intros [= <-]. discriminate.
  - intros [= <-] _. apply query_body_success in Hbody. tauto.
Qed.

(** C10 at a query that retrieves a stored document: the document is not
    among the sources. *)
Lemma C10_sources_witness :
  sources {| success := true;
             answer := "Connection analysis shows: Strong connections show regular interaction patterns and mutual engagement. Connection strength correlates with response rates and collaboration success. Use these insights to prioritize your outreach efforts.";
             confidence := 0.85;
             sources := [ "Networking knowledge base - connection_analysis" ];
             insights := connection_analysis_insights;
             retrieved_documents :=
               Some [ {| r_content := "warm leads"; relevance_score := 1;
                         r_meta := VNone |} ];
             error := None |}
  = [ "Networking knowledge base - " +:+ "connection_analysis" ].
Proof.
  apply (C10_sources "warm" "" "connection_analysis"
           (rag_of [("warm leads", VNone)])).
  - vm_compute. reflexivity.
  - reflexivity.
Defined.

(** ** The stores of text documents are those ingestion builds *)

Lemma stored_doc_dict d : stored_doc (doc_dict d) = text_doc d.
Proof.
  unfold stored_doc, doc_dict, text_doc.
  rewrite lookup_insert_eq, lookup_insert_ne by discriminate.
  rewrite lookup_singleton_eq. reflexivity.
Qed.

Lemma rag_of_ingested tds :
  state_after (add_documents (doc_dict <$> tds)) init = rag_of tds.
Proof.
  unfold state_after. rewrite add_documents_run. cbn. unfold rag_of. f_equal.
  rewrite <- list_fmap_compose. apply list_fmap_ext. intros i d _.
  apply stored_doc_dict.
Qed.

(** ** Examples *)

(** Tokens are the maximal runs of non-whitespace. *)
Example split_tokens :
  PyStr.split ("  How do" +:+ String (ascii_of_nat 9) "I  network? ")
  = [ "How"; "do"; "I"; "network?" ].
Proof. reflexivity. Qed.

(** The scenario of the LinkedIn document: it is retrieved, with the five
    tokens i, a, warm, introduction and on found in it. *)
Example linkedin_scenario :
  option_map (map relevance_score)
    (retrieved_documents
       (match result_of
                (query "How do I get a warm introduction on LinkedIn?" ""
                       "networking_strategy")
                (rag_of [ ("LinkedIn warm introductions increase success by 70%",
                           VDict {[ "source" := VStr "test" ]}) ])
        with inr r => r | inl e => query_failure e end))
  = Some [5].
Proof. vm_compute. reflexivity. Qed.

(** Equal scores keep the insertion order; at most three entries come back. *)
Example ties_keep_insertion_order :
  option_map (map (fun rd => (r_content rd, relevance_score rd)))
    (retrieved_documents
       (match result_of
                (query "warm intro" "" "networking_strategy")
                (rag_of [ ("first warm", VNone); ("a warm intro", VNone);
                          ("cold", VNone); ("second warm", VNone);
                          ("intro, warm", VNone); ("third warm", VNone) ])
        with inr r => r | inl e => query_failure e end))
  = Some [ ("a warm intro", 2); ("intro, warm", 2); ("first warm", 1) ].
Proof. vm_compute. reflexivity. Qed.

(** A question of whitespace only has no token and retrieves nothing. *)
Example whitespace_question :
  option_map (@length _)
    (retrieved_documents
       (match result_of (query "   " "" "industry_insights")
                        (rag_of [ ("warm", VNone) ])
        with inr r => r | inl e => query_failure e end))
  = Some 0.
Proof. vm_compute. reflexivity. Qed.

(** A knowledge base without the default category makes the body of
    [query] raise a KeyError, which [query] turns into a result. *)
Example missing_default_category :
  result_of (query "warm" "" "industry_insights")
            {| documents := []; knowledge_base := ∅ |}
  = inr {| success := false; answer := ""; confidence := 0.0;
           sources := []; insights := []; retrieved_documents := None;
           error := Some "'networking_strategies'" |}.
Proof. vm_compute. reflexivity. Qed.

(** So does a category whose list is too short for its template. *)
Example short_knowledge_list :
  result_of (query "warm" "" "connection_analysis")
            {| documents := [];
               knowledge_base :=
                 <["connection_analysis" := ["only one"]]> initial_knowledge_base |}
  = inr {| success := false; answer := ""; confidence := 0.0;
           sources := []; insights := []; retrieved_documents := None;
           error := Some "list index out of range" |}.
Proof. vm_compute. reflexivity. Qed.

(** The category [introduction_advice] is no key of the knowledge base: its
    template is filled with the statements of the default category. *)
Example introduction_advice_answer :
  option_map answer
    (match result_of (query "How?" "" "introduction_advice") init
     with inr r => Some r | inl _ => None end)
  = Some "For effective introductions, Focus on building authentic, mutually beneficial relationships rather than transactional connections. Leverage warm introductions through mutual connections for higher success rates. Remember that successful introductions create value for all parties involved.".
Proof. vm_compute. reflexivity. Qed.

(** Five of the seven triggers are reported, in trigger order. *)
Example phrase_triggers :
  extract_insights
    "Timing matters: follow-up on every Warm Introduction, add value, stay authentic in your industry and use mutual contacts."
    "networking_strategy"
  = [ "Leverage warm introductions"; "Focus on mutual connections";
      "Lead with value proposition"; "Maintain consistent follow-up";
      "Build authentic relationships" ].
Proof. vm_compute. reflexivity. Qed.

(** ** Further properties of [query] *)

(** [_generate_answer] neither reads nor writes the state. *)
Lemma generate_answer_state q c t k st :
  _generate_answer q c t k st
  = (st, result_of (_generate_answer q c t k) init).
Proof.
  unfold _generate_answer, result_of, getitem.
  repeat (match goal with |- context [if ?b then _ else _] => destruct b end);
    destruct k as [|k0 [|k1 [|k2 rest]]]; reflexivity.
Qed.

(** The [try] block of [query], step by step, in any state. *)
Lemma query_body_run q c t st :
  query_body q c t st
  = (st,
     match knowledge_base st !! "networking_strategies" with
     | None => inl (Exn KeyError "'networking_strategies'")
     | Some dflt =>
         match result_of (_find_relevant_documents q c) st with
         | inl e => inl e
         | inr docs =>
             let knowledge := default dflt (knowledge_base st !! t) in
             match result_of (_generate_answer q c t knowledge) init with
             | inl e => inl e
             | inr a =>
                 inr {| success := true;
                        answer := a;
                        confidence := 0.85;
                        sources := [ "Networking knowledge base - " +:+ t ];
                        insights := _extract_insights q t knowledge;
                        retrieved_documents := Some (take 3 docs);
                        error := None |}
             end
         end
     end).
Proof.
  unfold query_body. rewrite run_bind.
  unfold knowledge_base_getitem at 1. rewrite run_bind. unfold get_self at 1.
  destruct (knowledge_base st !! "networking_strategies") as [dflt|];
    [|reflexivity].
  rewrite run_ret, run_bind. unfold get_self at 1. rewrite run_bind.
  pose proof (read_only_find_relevant_documents q c st) as Hst.
  unfold result_of.
  destruct (_find_relevant_documents q c st) as [st' [e|docs]];
    cbn in Hst; subst st'; [reflexivity|].
  rewrite run_bind, generate_answer_state. unfold result_of. cbn zeta.
  destruct ((_generate_answer q c t _ init).2) as [e|a]; reflexivity.
Qed.

Lemma query_run q c t st :
  result_of (query q c t) st
  = inr match (query_body q c t st).2 with
        | inl e => query_failure e
        | inr r => r
        end.
Proof.
  unfold result_of, query, try_except.
  destruct (query_body q c t st) as [st' [e|r]]; reflexivity.
Qed.

(** The answer, the insights and the sources do not depend on the stored
    documents: two states with the same knowledge base in which the query
    succeeds give the same answer, insights, sources and confidence. *)
Theorem answer_ignores_store (q c t : string) (st1 st2 : rag)
    (r1 r2 : QueryResult) :
  knowledge_base st1 = knowledge_base st2 ->
  result_of (query q c t) st1 = inr r1 ->
  result_of (query q c t) st2 = inr r2 ->
  success r1 = true -> success r2 = true ->
  answer r1 = answer r2 /\ insights r1 = insights r2
  /\ sources r1 = sources r2 /\ confidence r1 = confidence r2.
Proof.
  intros Hkb. rewrite !query_run, !query_body_run, <- Hkb. cbn [snd].
  destruct (knowledge_base st1 !! "networking_strategies") as [dflt|].
  2:{ intros [= <-]. discriminate. }
  destruct (result_of (_find_relevant_documents q c) st1) as [e1|docs1].
  { intros [= <-]. discriminate. }
  destruct (result_of (_find_relevant_documents q c) st2) as [e2|docs2].
  { intros _ [= <-]. discriminate. }
  cbn zeta.
  destruct (result_of (_generate_answer q c t _) init) as [e|a].
  { intros [= <-]. discriminate. }
  intros [= <-] [= <-] _ _. repeat split.
Qed.

(** [answer_ignores_store] at the empty store and a store whose document
    matches the question. *)
Lemma answer_ignores_store_witness :
  answer {| success := true;
            answer := "Focus on building authentic, mutually beneficial relationships rather than transactional connections. Leverage warm introductions through mutual connections for higher success rates. Consider your specific goals and target audience when developing your approach.";
            confidence := 0.85;
            sources := [ "Networking knowledge base - networking_strategy" ];
            insights := networking_strategy_insights;
            retrieved_documents := Some [];
            error := None |}
  = answer {| success := true;
              answer := "Focus on building authentic, mutually beneficial relationships rather than transactional connections. Leverage warm introductions through mutual connections for higher success rates. Consider your specific goals and target audience when developing your approach.";
              confidence := 0.85;
              sources := [ "Networking knowledge base - networking_strategy" ];
              insights := networking_strategy_insights;
              retrieved_documents :=
                Some [ {| r_content := "warm leads"; relevance_score := 1;
                          r_meta := VNone |} ];
              error := None |}.
Proof.
  apply (answer_ignores_store "warm" "" "networking_strategy"
           (rag_of []) (rag_of [("warm leads", VNone)])).
  - reflexivity.
  - vm_compute. reflexivity.
  - vm_compute. reflexivity.
  - reflexivity.
  - reflexivity.
Defined.

(** The context is read for the category [industry_insights] only: for
    any other category the whole result is the same whatever the context,
    in every state. *)
Theorem context_only_for_industry (q c c' t : string) (st : rag) :
  t <> "industry_insights" ->
  query q c t st = query q c' t st.
Proof.
  intros Ht. unfold query, try_except. rewrite !query_body_run.
  assert (Hgen : forall k, _generate_answer q c t k = _generate_answer q c' t k).
  { intros k. unfold _generate_answer.
    destruct (String.eqb_spec t "industry_insights"); [contradiction|].
    reflexivity. }
  destruct (knowledge_base st !! "networking_strategies"); [|reflexivity].
  change (_find_relevant_documents q c') with (_find_relevant_documents q c).
  destruct (result_of (_find_relevant_documents q c) st); [reflexivity|].
  cbn zeta. rewrite Hgen. reflexivity.
Qed.

(** [context_only_for_industry] at the category [connection_analysis]. *)
Lemma context_only_for_industry_witness :
  query "Who should I contact?" "finance" "connection_analysis" init
  = query "Who should I contact?" "healthcare" "connection_analysis" init.
Proof.
  apply (context_only_for_industry
           "Who should I contact?" "finance" "healthcare" "connection_analysis").
  discriminate.
Defined.

(** A loop over a concatenation runs the first part, then the second. *)
Lemma for_loop_app {A B} (l1 l2 : list A) (body : B -> A -> M B) acc st :
  for_loop (l1 ++ l2) body acc st
  = match for_loop l1 body acc st with
    | (st', inl e) => (st', inl e)
    | (st', inr acc') => for_loop l2 body acc' st'
    end.
Proof.
  revert acc st. induction l1 as [|x l1 IH]; intros acc st; [reflexivity|].
  cbn [app for_loop]. rewrite !run_bind.
  destruct (body acc x st) as [st' [e|acc']]; [reflexivity|apply IH].
Qed.

Lemma find_relevant_non_text q c st tds bad rest :
  documents st = (text_doc <$> tds) ++ bad :: rest ->
  is_str (content bad) = false ->
  result_of (_find_relevant_documents q c) st
  = inl (no_attribute (content bad) "lower").
Proof.
  intros Hdocs Hbad. unfold result_of, _find_relevant_documents.
  rewrite run_bind. unfold get_self at 1. rewrite run_bind, Hdocs.
  rewrite for_loop_app, find_loop_text. cbn [for_loop]. rewrite run_bind.
  unfold find_relevant_step at 1.
  destruct (content bad); try discriminate Hbad; reflexivity.
Qed.

Lemma non_text_content_lemma
    (q c t : string) (st : rag) (tds : list (string * value))
    (bad : Doc) (rest : list Doc) (dflt : list string) :
  documents st = (text_doc <$> tds) ++ bad :: rest ->
  is_str (content bad) = false ->
  knowledge_base st !! "networking_strategies" = Some dflt ->
  query q c t st
  = (st, inr (query_failure (no_attribute (content bad) "lower"))).
Proof.
  intros Hdocs Hbad Hkb. unfold query, try_except.
  rewrite query_body_run, Hkb.
  rewrite (find_relevant_non_text q c st tds bad rest Hdocs Hbad). reflexivity.
Qed.

(** One stored document whose content is not a string makes every query
    fail, whatever the question, context and category: the result is the
    failure result, and its error names the type of the first such
    content. *)
Theorem non_text_content_fails_every_query
    (q c t : string) (st : rag) (tds : list (string * value))
    (bad : Doc) (rest : list Doc) (dflt : list string) :
  documents st = (text_doc <$> tds) ++ bad :: rest ->
  is_str (content bad) = false ->
  knowledge_base st !! "networking_strategies" = Some dflt ->
  query q c t st
  = (st, inr {| success := false;
                answer := "";
                confidence := 0.0;
                sources := [];
                insights := [];
                retrieved_documents := None;
                error := Some ("'" +:+ type_name (content bad)
                               +:+ "' object has no attribute 'lower'") |}).
Proof.
  intros Hdocs Hbad Hkb.
  rewrite (non_text_content_lemma q c t st tds bad rest dflt Hdocs Hbad Hkb).
  reflexivity.
Qed.

(** [non_text_content_fails_every_query] after the ingestion of a text
    document and of one whose content is a number. *)
Lemma non_text_content_fails_every_query_witness :
  query "warm" "" "networking_strategy"
    (state_after (add_documents [ {[ "content" := VStr "warm leads" ]};
                                  {[ "content" := VInt 7 ]} ]) init)
  = (state_after (add_documents [ {[ "content" := VStr "warm leads" ]};
                                  {[ "content" := VInt 7 ]} ]) init,
     inr {| success := false;
            answer := "";
            confidence := 0.0;
            sources := [];
            insights := [];
            retrieved_documents := None;
            error := Some ("'" +:+ type_name (VInt 7)
                           +:+ "' object has no attribute 'lower'") |}).
Proof.
  apply (non_text_content_fails_every_query "warm" "" "networking_strategy"
           (state_after (add_documents [ {[ "content" := VStr "warm leads" ]};
                                         {[ "content" := VInt 7 ]} ]) init)
           [ ("warm leads", VDict ∅) ]
           {| content := VInt 7; meta := VDict ∅ |} []
           networking_strategies).
  - vm_compute. reflexivity.
  - reflexivity.
  - vm_compute. reflexivity.
Defined.

(** ** Further properties of [add_documents] *)

Lemma add_values_loop_dicts (ds : list (gmap string value)) st :
  for_loop (VDict <$> ds)
    (fun _ doc =>
       match doc with
       | VDict d => documents_append (stored_doc d)
       | v => raise (no_attribute v "get")
       end) tt st
  = ({| documents := documents st ++ (stored_doc <$> ds);
        knowledge_base := knowledge_base st |}, inr tt).
Proof.
  rewrite <- add_loop_run. revert st.
  induction ds as [|d ds IH]; intros st; [reflexivity|].
  rewrite fmap_cons. cbn [for_loop]. rewrite !run_bind.
  destruct (documents_append (stored_doc d) st) as [st' [e|[]]];
    [reflexivity|apply IH].
Qed.

Lemma dicts_or_first_other (docs : list value) :
  (exists ds, docs = VDict <$> ds)
  \/ (exists ds v rest, docs = (VDict <$> ds) ++ v :: rest /\ is_dict v = false).
Proof.
  induction docs as [|v docs IH].
  - left. exists []. reflexivity.
  - destruct (is_dict v) eqn:Hv.
    + destruct v; try discriminate Hv.
      destruct IH as [(ds & ->)|(ds & v' & rest & -> & Hv')].
      * left. exists (d :: ds). reflexivity.
      * right. exists (d :: ds), v', rest. split; [reflexivity|exact Hv'].
    + right. exists [], v, docs. split; [reflexivity|exact Hv].
Qed.

Lemma add_documents_values_dicts ds st :
  add_documents_values (VDict <$> ds) st = add_documents ds st.
Proof.
  rewrite add_documents_run. unfold add_documents_values, try_except.
  rewrite run_bind, add_values_loop_dicts, run_bind. cbn.
  rewrite length_app, !length_fmap. reflexivity.
Qed.

Lemma add_documents_values_other ds v rest st :
  is_dict v = false ->
  add_documents_values ((VDict <$> ds) ++ v :: rest) st
  = ({| documents := documents st ++ (stored_doc <$> ds);
        knowledge_base := knowledge_base st |},
     inr {| a_success := false;
            a_count := 0;
            a_total_documents := None;
            a_error := Some ("'" +:+ type_name v
                             +:+ "' object has no attribute 'get'") |}).
Proof.
  intros Hv. unfold add_documents_values, try_except.
  rewrite run_bind, for_loop_app, add_values_loop_dicts.
  cbn [for_loop]. rewrite run_bind.
  destruct v; try discriminate Hv; reflexivity.
Qed.

(** On a list of dicts, ingestion of open-typed values is [add_documents];
    on any list it returns a result, which reports success exactly when
    every element is a dict. *)
Theorem add_documents_values_success
    (docs : list value) (ds : list (gmap string value)) (st : rag) :
  add_documents_values (VDict <$> ds) st = add_documents ds st
  /\ exists r,
       result_of (add_documents_values docs) st = inr r
       /\ a_success r = forallb is_dict docs.
Proof.
  split; [apply add_documents_values_dicts|].
  destruct (dicts_or_first_other docs) as [(ds' & ->)|(ds' & v & rest & -> & Hv)].
  - unfold result_of. rewrite add_documents_values_dicts, add_documents_run.
    eexists. split; [reflexivity|]. cbn [a_success snd]. symmetry.
    apply forallb_forall. intros x Hx. apply in_map_iff in Hx as (d & <- & _).
    reflexivity.
  - unfold result_of. rewrite add_documents_values_other by exact Hv.
    eexists. split; [reflexivity|]. cbn [a_success snd]. symmetry.
    apply not_true_is_false. intros Hall.
    rewrite forallb_forall in Hall.
    specialize (Hall v). rewrite Hv in Hall. discriminate Hall.
    apply in_or_app. right. left. reflexivity.
Qed.

(** Ingestion is not atomic: when the first element that is not a dict
    comes after some dicts, the call reports failure with count 0 and the
    message naming that element's type, and the documents before it stay
    appended to the store. *)
Theorem add_documents_values_partial
    (ds : list (gmap string value)) (v : value) (rest : list value) (st : rag) :
  is_dict v = false ->
  exists r,
    result_of (add_documents_values ((VDict <$> ds) ++ v :: rest)) st = inr r /\
    a_success r = false /\ a_count r = 0 /\
    a_error r = Some ("'" +:+ type_name v +:+ "' object has no attribute 'get'") /\
    documents (state_after (add_documents_values ((VDict <$> ds) ++ v :: rest)) st)
    = documents st ++ (stored_doc <$> ds) /\
    knowledge_base (state_after (add_documents_values ((VDict <$> ds) ++ v :: rest)) st)
    = knowledge_base st.
Proof.
  intros Hv. unfold result_of, state_after.
  rewrite add_documents_values_other by exact Hv.
  eexists. repeat split.
Qed.

(** [add_documents_values_partial] at a list whose second element is a
    string. *)
Lemma add_documents_values_partial_witness :
  exists r,
    result_of (add_documents_values
                 ((VDict <$> [ {[ "content" := VStr "warm leads" ]} ])
                  ++ VStr "cold" :: [ VDict ∅ ])) init = inr r /\
    a_success r = false /\ a_count r = 0 /\
    a_error r = Some ("'" +:+ type_name (VStr "cold")
                      +:+ "' object has no attribute 'get'") /\
    documents (state_after (add_documents_values
                 ((VDict <$> [ {[ "content" := VStr "warm leads" ]} ])
                  ++ VStr "cold" :: [ VDict ∅ ])) init)
    = documents init ++ (stored_doc <$> [ {[ "content" := VStr "warm leads" ]} ]) /\
    knowledge_base (state_after (add_documents_values
                 ((VDict <$> [ {[ "content" := VStr "warm leads" ]} ])
                  ++ VStr "cold" :: [ VDict ∅ ])) init)
    = knowledge_base init.
Proof.
  apply (add_documents_values_partial
           [ {[ "content" := VStr "warm leads" ]} ] (VStr "cold") [ VDict ∅ ] init).
  reflexivity.
Defined.

(** Two ingestions in a row leave the store that one ingestion of the
    concatenated inputs leaves, and the second reports the size of the
    store before the first plus both counts. *)
Theorem add_documents_batches
    (a b : list (gmap string value)) (st : rag) :
  state_after (add_documents b) (state_after (add_documents a) st)
  = state_after (add_documents (a ++ b)) st
  /\ result_of (add_documents b) (state_after (add_documents a) st)
     = inr {| a_success := true;
              a_count := length b;
              a_total_documents :=
                Some (length (documents st) + length a + length b);
              a_error := None |}
  /\ result_of (add_documents (a ++ b)) st
     = inr {| a_success := true;
              a_count := length a + length b;
              a_total_documents :=
                Some (length (documents st) + length a + length b);
              a_error := None |}.
Proof.
  unfold state_after, result_of. rewrite !add_documents_run. cbn.
  rewrite fmap_app, !length_app, !length_fmap, <- app_assoc.
  repeat split. rewrite Nat.add_assoc. reflexivity.
Qed.

(** ** Statistics *)

Lemma run_ops_documents_length os st :
  length (documents (run_ops st os)) = length (documents st) + added_count os.
Proof.
  revert st. induction os as [|o os IH]; intros st.
  - cbn. lia.
  - change (run_ops st (o :: os)) with (run_ops (run_op st o) os).
    rewrite IH. cbn [added_count sum_list_with].
    fold (added_count os).
    destruct o as [docs|q c t|]; cbn [run_op]; unfold state_after.
    + rewrite add_documents_run. cbn. rewrite length_app, length_fmap. lia.
    + rewrite read_only_query. lia.
    + rewrite read_only_get_stats. lia.
Qed.

(** After any sequence of operations, [get_stats] reports as total the
    size of the store at the start plus the number of documents the
    ingestions of the sequence were given, and the number of categories of
    the knowledge base at the start; from the constructor's state these are
    the number of documents given and 4. *)
Theorem get_stats_counts (os : list op) (st : rag) :
  result_of get_stats (run_ops st os)
  = inr (length (documents st) + added_count os, size (knowledge_base st))
  /\ result_of get_stats (run_ops init os) = inr (added_count os, 4).
Proof.
  assert (H : forall st', result_of get_stats (run_ops st' os)
            = inr (length (documents st') + added_count os,
                   size (knowledge_base st'))).
  { intros st'. unfold result_of, get_stats. rewrite run_bind.
    unfold get_self at 1. rewrite run_ret. cbn [snd].
    rewrite run_ops_documents_length.
    destruct (run_ops_grows os st') as [_ ->]. reflexivity. }
  split; [apply H|]. rewrite H. reflexivity.
Qed.

(** ** Further properties of the retrieval *)

Lemma string_of_list_ascii_nonempty (l : list ascii) :
  l <> [] -> string_of_list_ascii l <> "".
Proof. destruct l; [contradiction|discriminate]. Qed.

Lemma flush_nonempty cur acc :
  Forall (fun t => t <> "") acc -> Forall (fun t => t <> "") (PyStr.flush cur acc).
Proof.
  intros Hacc. destruct cur as [|c cur]; [exact Hacc|].
  unfold PyStr.flush. apply Forall_app. split; [exact Hacc|].
  constructor; [|constructor].
  apply string_of_list_ascii_nonempty. cbn [rev].
  intros H. apply app_eq_nil in H as [_ H]. discriminate H.
Qed.

Lemma split_from_nonempty s cur acc :
  Forall (fun t => t <> "") acc ->
  Forall (fun t => t <> "") (PyStr.split_from s cur acc).
Proof.
  revert cur acc. induction s as [|ch s IH]; intros cur acc Hacc.
  - apply flush_nonempty, Hacc.
  - cbn [PyStr.split_from]. destruct (PyStr.isspace ch); apply IH.
    + apply flush_nonempty, Hacc.
    + exact Hacc.
Qed.

(** [str.split()] returns no empty token. *)
Lemma split_nonempty s : Forall (fun t => t <> "") (PyStr.split s).
Proof. apply split_from_nonempty. constructor. Qed.

Lemma count_terms_empty_content terms :
  Forall (fun t => t <> "") terms -> count_terms terms "" = 0.
Proof.
  induction 1 as [|t terms Ht _ IH]; [reflexivity|].
  cbn [count_terms]. rewrite IH. destruct t; [contradiction|reflexivity].
Qed.

Lemma doc_score_empty_content q : doc_score q "" = 0.
Proof. apply count_terms_empty_content, split_nonempty. Qed.

Lemma str_length_append s1 s2 :
  String.length (s1 +:+ s2) = String.length s1 + String.length s2.
Proof.
  induction s1 as [|c s1 IH]; [reflexivity|].
  change (S (String.length (s1 +:+ s2)) = S (String.length s1 + String.length s2)).
  rewrite IH. reflexivity.
Qed.

Lemma rank_bounds q d :
  0 < doc_score q d.1 ->
  r_content (rank q d) <> ""
  /\ PyStr.len (r_content (rank q d)) <= 203
  /\ 1 <= relevance_score (rank q d) <= length (PyStr.split (PyStr.lower q)).
Proof.
  intros Hpos. cbn [rank r_content relevance_score].
  assert (Hne : d.1 <> "").
  { intros Heq. rewrite Heq, doc_score_empty_content in Hpos. lia. }
  split; [|split; [|split; [lia|]]].
  - destruct (200 <? PyStr.len d.1); [|exact Hne].
    intros H. apply (f_equal String.length) in H.
    rewrite str_length_append in H. cbn in H. lia.
  - destruct (Nat.ltb_spec 200 (PyStr.len d.1)) as [Hlong|Hshort]; [|lia].
    unfold PyStr.len. rewrite str_length_append.
    fold (PyStr.len (PyStr.slice_to 200 d.1)). rewrite slice_to_len by lia.
    cbn. lia.
  - rewrite doc_score_filter. apply length_filter.
Qed.

(** Every retrieved entry has a non-empty content of at most 203
    characters and a score between 1 and the number of question tokens; a
    content that is empty, as stored for a document without content,
    scores 0 for every question and is never retrieved. *)
Theorem retrieved_entries_bounds
    (q c t : string) (tds : list (string * value)) :
  exists r found,
    result_of (query q c t) (rag_of tds) = inr r /\
    retrieved_documents r = Some found /\
    Forall (fun rd =>
              r_content rd <> "" /\ PyStr.len (r_content rd) <= 203
              /\ 1 <= relevance_score rd
                 <= length (PyStr.split (PyStr.lower q))) found /\
    doc_score q "" = 0.
Proof.
  unfold result_of. rewrite query_text. do 2 eexists.
  split; [reflexivity|]. split; [reflexivity|].
  split; [|apply doc_score_empty_content].
  apply Forall_take. rewrite sorted_reverse_perm.
  apply Forall_fmap, Forall_forall. intros d Hd.
  apply list_elem_of_filter in Hd as [Hpos _]. apply rank_bounds, Hpos.
Qed.

Lemma filter_no_match q (tds : list (string * value)) :
  Forall (fun d => doc_score q d.1 = 0) tds ->
  filter (fun d => 0 < doc_score q d.1) tds = [].
Proof.
  induction 1 as [|d tds Hd _ IH]; [reflexivity|].
  rewrite filter_cons, IH, decide_False by lia. reflexivity.
Qed.

(** When exactly one stored document contains a token of the question,
    the retrieved list is that document's entry alone, wherever the
    document stands in the store. *)
Theorem sole_match_is_sole_result
    (q c t : string) (tds1 tds2 : list (string * value)) (d : string * value) :
  0 < doc_score q d.1 ->
  Forall (fun d' => doc_score q d'.1 = 0) (tds1 ++ tds2) ->
  exists r rd,
    result_of (query q c t) (rag_of (tds1 ++ d :: tds2)) = inr r /\
    retrieved_documents r = Some [rd] /\
    entry_of q d rd.
Proof.
  intros Hpos Hrest. apply Forall_app in Hrest as [H1 H2].
  unfold result_of. rewrite query_text. eexists. exists (rank q d).
  split; [reflexivity|]. split; [|apply rank_entry_of].
  cbn [retrieved_documents snd].
  rewrite filter_app, filter_cons, !filter_no_match by assumption.
  rewrite decide_True by exact Hpos. reflexivity.
Qed.

(** [sole_match_is_sole_result] at a store of three documents. *)
Lemma sole_match_is_sole_result_witness :
  exists r rd,
    result_of (query "warm intro" "" "networking_strategy")
              (rag_of ([ ("cold call", VNone) ]
                       ++ ("a WARM lead", VInt 1) :: [ ("", VNone) ]))
    = inr r /\
    retrieved_documents r = Some [rd] /\
    entry_of "warm intro" ("a WARM lead", VInt 1) rd.
Proof.
  apply (sole_match_is_sole_result "warm intro" "" "networking_strategy"
           [ ("cold call", VNone) ] [ ("", VNone) ] ("a WARM lead", VInt 1)).
  - vm_compute. lia.
  - repeat constructor.
Defined.

Lemma filter_head_split {A} (P : A -> Prop) `{!forall x, Decision (P x)}
    (l : list A) (d : A) (l' : list A) :
  filter P l = d :: l' ->
  exists l1 l2, l = l1 ++ d :: l2 /\ Forall (fun x => ~ P x) l1 /\ P d.
Proof.
  induction l as [|x l IH]; [discriminate|].
  rewrite filter_cons. destruct (decide (P x)) as [Hx|Hx].
  - intros [= -> _]. exists [], l. repeat split; [constructor|exact Hx].
  - intros Hf. destruct (IH Hf) as (l1 & l2 & -> & Hl1 & Hd).
    exists (x :: l1), l2. repeat split; [constructor; assumption|exact Hd].
Qed.

(** The first retrieved entry is that of the stored document with the
    highest score, and of the earliest one among those that reach it: all
    documents ingested before it score strictly less, all documents
    ingested after it score at most as much. *)
Theorem first_result_is_earliest_best
    (q c t : string) (tds : list (string * value))
    (r : QueryResult) (rd : RankedDocument) (others : list RankedDocument) :
  result_of (query q c t) (rag_of tds) = inr r ->
  retrieved_documents r = Some (rd :: others) ->
  exists tds1 d tds2,
    tds = tds1 ++ d :: tds2 /\
    entry_of q d rd /\
    Forall (fun d' => doc_score q d'.1 < doc_score q d.1) tds1 /\
    Forall (fun d' => doc_score q d'.1 <= doc_score q d.1) tds2.
Proof.
  unfold result_of. rewrite query_text. intros [= <-].
  cbn [retrieved_documents]. rewrite sorted_reverse_fmap.
  set (by_score := fun d : string * value => doc_score q d.1).
  set (survivors := filter (fun d => 0 < doc_score q d.1) tds).
  change (fun a => relevance_score (rank q a)) with by_score.
  pose proof (sorted_reverse_perm by_score survivors) as Hperm.
  pose proof (sorted_reverse_sorted by_score survivors) as Hsorted.
  pose proof (fun k => sorted_reverse_stable by_score k survivors) as Hstable.
  remember (sorted_reverse by_score survivors) as S0 eqn:HS0.
  clear HS0. destruct S0 as [|d S]; [discriminate|].
  intros [= <- _].
  assert (Hd : 0 < by_score d).
  { assert (Hin : d ∈ survivors) by (rewrite <- Hperm; left).
    apply list_elem_of_filter in Hin as [Hpos _]. exact Hpos. }
  assert (Hmax : forall x, x ∈ tds -> by_score x <= by_score d).
  { intros x Hx. destruct (decide (0 < by_score x)) as [Hpos|Hzero]; [|lia].
    assert (Hin : x ∈ d :: S).
    { rewrite Hperm. apply list_elem_of_filter. split; assumption. }
    apply elem_of_cons in Hin as [->|Hin]; [lia|].
    apply StronglySorted_inv in Hsorted as [_ Hall].
    rewrite Forall_forall in Hall. apply (Hall x Hin). }
  specialize (Hstable (by_score d)).
  rewrite filter_cons, decide_True in Hstable by reflexivity.
  unfold survivors in Hstable. rewrite list_filter_filter in Hstable.
  symmetry in Hstable. apply filter_head_split in Hstable
    as (tds1 & tds2 & Htds & Hbefore & _).
  exists tds1, d, tds2. split; [exact Htds|]. split; [apply rank_entry_of|].
  split; apply Forall_forall; intros x Hx.
  - rewrite Forall_forall in Hbefore. specialize (Hbefore x Hx).
    assert (Hle : by_score x <= by_score d).
    { apply Hmax. rewrite Htds. apply elem_of_app. left. exact Hx. }
    unfold by_score in *.
    destruct (decide (doc_score q x.1 = doc_score q d.1)) as [Heq|Hne]; [|lia].
    exfalso. apply Hbefore. split; [exact Heq|lia].
  - apply Hmax. rewrite Htds. apply elem_of_app. right. right. exact Hx.
Qed.

(** [first_result_is_earliest_best] at a store where two documents reach
    the highest score. *)
Lemma first_result_is_earliest_best_witness :
  exists tds1 d tds2,
    [ ("first warm", VNone); ("a warm intro", VNone);
      ("intro, warm", VNone) ] = tds1 ++ d :: tds2 /\
    entry_of "warm intro" d
      {| r_content := "a warm intro"; relevance_score := 2; r_meta := VNone |} /\
    Forall (fun d' => doc_score "warm intro" d'.1 < doc_score "warm intro" d.1) tds1 /\
    Forall (fun d' => doc_score "warm intro" d'.1 <= doc_score "warm intro" d.1) tds2.
Proof.
  apply (first_result_is_earliest_best "warm intro" "" "networking_strategy"
           [ ("first warm", VNone); ("a warm intro", VNone);
             ("intro, warm", VNone) ]
           {| success := true;
              answer := answer_text "warm intro" "" "networking_strategy"
                          (knowledge_for "networking_strategy");
              confidence := 0.85;
              sources := [ "Networking knowledge base - networking_strategy" ];
              insights := networking_strategy_insights;
              retrieved_documents :=
                Some [ {| r_content := "a warm intro"; relevance_score := 2;
                          r_meta := VNone |};
                       {| r_content := "intro, warm"; relevance_score := 2;
                          r_meta := VNone |};
                       {| r_content := "first warm"; relevance_score := 1;
                          r_meta := VNone |} ];
              error := None |}
           {| r_content := "a warm intro"; relevance_score := 2; r_meta := VNone |}
           [ {| r_content := "intro, warm"; relevance_score := 2; r_meta := VNone |};
             {| r_content := "first warm"; relevance_score := 1; r_meta := VNone |} ]).
  - vm_compute. reflexivity.
  - reflexivity.
Defined.

(** ** Further properties of the answer templates *)

Lemma next_or_in {A} (p : A -> bool) (l : list A) (dflt : A) :
  next_or p l dflt ∈ dflt :: l.
Proof.
  induction l as [|x l IH]; cbn [next_or]; [left|].
  destruct (p x); [right; left|].
  apply elem_of_cons in IH as [->|IH]; [left|right; right; exact IH].
Qed.

(** Whatever the question, the context, the category and the stored text
    documents, the answer of [query] is one of ten fixed sentences. *)
Theorem answer_is_one_of_ten
    (q c t : string) (tds : list (string * value)) :
  exists r,
    result_of (query q c t) (rag_of tds) = inr r /\
    answer r ∈ possible_answers.
Proof.
  unfold result_of. rewrite query_text. eexists. split; [reflexivity|].
  cbn [answer snd]. rewrite knowledge_for_cases. unfold answer_text.
  destruct (String.eqb_spec t "networking_strategy") as [->|H1].
  { destruct ("company" ∈s PyStr.lower q); vm_compute;
      repeat first [left | right]. }
  destruct (String.eqb_spec t "introduction_advice") as [->|H2].
  { vm_compute. repeat first [left | right]. }
  destruct (String.eqb_spec t "industry_insights") as [->|H3].
  { rewrite decide_False by discriminate. rewrite decide_True by reflexivity.
    pose proof (next_or_in
      (fun insight => PyStr.lower (_extract_industry_context q c)
                      ∈s PyStr.lower insight)
      industry_insights
      (default "" (industry_insights !! 0))) as Hin.
    revert Hin.
    generalize (next_or
      (fun insight => PyStr.lower (_extract_industry_context q c)
                      ∈s PyStr.lower insight)
      industry_insights
      (default "" (industry_insights !! 0))).
    intros stmt Hin. unfold industry_insights in Hin.
    cbn [lookup list_lookup default from_option] in Hin.
    repeat (apply elem_of_cons in Hin as [->|Hin]);
      [| | | | |inversion Hin]; vm_compute; repeat first [left | right]. }
  destruct (String.eqb_spec t "connection_analysis") as [->|H4].
  { vm_compute. repeat first [left | right]. }
  repeat case_decide; subst; try congruence;
    vm_compute; repeat first [left | right].
Qed.

(** *** Substrings of substrings *)

Lemma prefix_append_inv a b s :
  String.prefix (a +:+ b) s = true ->
  exists r, s = a +:+ r /\ String.prefix b r = true.
Proof.
  revert s. induction a as [|x a IH]; intros s H.
  - exists s. split; [reflexivity|exact H].
  - destruct s as [|y s]; simpl in H; [discriminate H|].
    destruct (ascii_dec x y) as [->|]; [|discriminate H].
    destruct (IH s H) as (r & -> & Hr). exists r. split; [reflexivity|exact Hr].
Qed.

Lemma contains_of_prefix b r : String.prefix b r = true -> b ∈s r = true.
Proof. intros H. destruct r; cbn [PyStr.contains]; rewrite H; reflexivity. Qed.

Lemma contains_append_l a b r : b ∈s r = true -> b ∈s (a +:+ r) = true.
Proof.
  intros H. induction a as [|x a IH]; [exact H|].
  change (String.prefix b (String x (a +:+ r)) || (b ∈s (a +:+ r)) = true).
  rewrite IH. apply orb_true_r.
Qed.

(** A string that contains [a +:+ b] contains [b]. *)
Lemma contains_append a b s : (a +:+ b) ∈s s = true -> b ∈s s = true.
Proof.
  induction s as [|y s IH]; intros H.
  - change (String.prefix (a +:+ b) "" || false = true) in H.
    rewrite orb_false_r in H. apply prefix_append_inv in H as (r & Hs & Hr).
    rewrite Hs. apply contains_append_l, contains_of_prefix, Hr.
  - change (String.prefix (a +:+ b) (String y s) || ((a +:+ b) ∈s s) = true) in H.
    apply orb_true_iff in H as [H|H].
    + apply prefix_append_inv in H as (r & Hs & Hr).
      rewrite Hs. apply contains_append_l, contains_of_prefix, Hr.
    + change (String.prefix b (String y s) || (b ∈s s) = true).
      rewrite (IH H). apply orb_true_r.
Qed.

(** For the category [industry_insights] the embedded statement is decided
    by the first of technology, finance, healthcare, consulting that occurs
    in the lower-cased question, space, context, and is the Technology
    statement when none occurs: the keywords tech and fintech change
    nothing, and fintech is never the detected industry. *)
Theorem industry_statement_table
    (q c : string) (tds : list (string * value)) :
  let text := PyStr.lower (q +:+ " " +:+ c) in
  exists r,
    result_of (query q c "industry_insights") (rag_of tds) = inr r /\
    answer r
    = "Based on industry analysis: "
      +:+ (if "technology" ∈s text
           then "Technology sector values innovation and rapid adaptation."
           else if "finance" ∈s text
           then "Finance industry prioritizes trust and regulatory compliance."
           else if "healthcare" ∈s text
           then "Healthcare focuses on patient outcomes and regulatory standards."
           else if "consulting" ∈s text
           then "Consulting emphasizes problem-solving and client relationships."
           else "Technology sector values innovation and rapid adaptation.")
      +:+ " Consider how this applies to your specific networking objectives." /\
    _extract_industry_context q c
    ∈ [ "technology"; "finance"; "healthcare"; "consulting"; "tech"; "general" ].
Proof.
  intros text. unfold result_of. rewrite query_text. eexists.
  split; [reflexivity|]. cbn [answer snd].
  assert (Hkw : _extract_industry_context q c = first_industry industries text)
    by reflexivity.
  assert (Hans : answer_text q c "industry_insights"
                   (knowledge_for "industry_insights")
                 = "Based on industry analysis: "
                   +:+ next_or (fun insight =>
                                  PyStr.lower (first_industry industries text)
                                  ∈s PyStr.lower insight)
                         industry_insights
                         "Technology sector values innovation and rapid adaptation."
                   +:+ " Consider how this applies to your specific networking objectives.")
    by reflexivity.
  rewrite Hans, Hkw. clear Hans Hkw.
  pose proof (contains_append "fin" "tech" text) as Hfin.
  unfold industries. cbn [first_industry].
  destruct ("technology" ∈s text);
    [split; [reflexivity|repeat first [left|right]]|].
  destruct ("finance" ∈s text);
    [split; [reflexivity|repeat first [left|right]]|].
  destruct ("healthcare" ∈s text);
    [split; [reflexivity|repeat first [left|right]]|].
  destruct ("consulting" ∈s text);
    [split; [reflexivity|repeat first [left|right]]|].
  destruct ("tech" ∈s text);
    [split; [reflexivity|repeat first [left|right]]|].
  change ("fin" +:+ "tech") with "fintech" in Hfin.
  destruct ("fintech" ∈s text);
    [specialize (Hfin eq_refl); discriminate Hfin|].
  split; [reflexivity|repeat first [left|right]].
Qed.

(** ** Further properties of the phrase-trigger strategy *)

(** Membership in a cut list of selected images: the image of the [i]-th
    element is kept exactly when the element is selected and fewer than [n]
    elements before it are. *)
Lemma take_fmap_filter_elem {A B} (f : A -> B) (P : A -> Prop)
    `{!forall x, Decision (P x)} (l : list A) (n i : nat) (x : A) :
  NoDup (f <$> l) -> l !! i = Some x ->
  (f x ∈ take n (f <$> filter P l)
   <-> P x /\ length (filter P (take i l)) < n).
Proof.
  intros Hnd Hi. pose proof (take_drop_middle l i x Hi) as Hl.
  set (before := take i l) in *. set (after := drop (S i) l) in *.
  clearbody before after. subst l. clear Hi.
  rewrite fmap_app, fmap_cons in Hnd.
  apply NoDup_app in Hnd as (_ & Hdisj & Hnd).
  apply NoDup_cons in Hnd as [Hafter _].
  assert (Hb : f x ∉ f <$> filter P before).
  { intros Hin. apply list_elem_of_fmap in Hin as (y & Hy & Hin).
    apply list_elem_of_filter in Hin as [_ Hin].
    apply (Hdisj (f y)); [apply list_elem_of_fmap_2, Hin|].
    rewrite <- Hy. left. }
  assert (Ha : f x ∉ f <$> filter P after).
  { intros Hin. apply list_elem_of_fmap in Hin as (y & Hy & Hin).
    apply list_elem_of_filter in Hin as [_ Hin].
    apply Hafter. rewrite Hy. apply list_elem_of_fmap_2, Hin. }
  rewrite filter_app, filter_cons, fmap_app.
  destruct (decide (P x)) as [HP|HP].
  - rewrite fmap_cons. split.
    + intros Hin. split; [exact HP|].
      destruct (decide (length (filter P before) < n)) as [Hlt|Hge]; [exact Hlt|].
      exfalso. apply Hb. rewrite take_app_le in Hin
        by (rewrite length_fmap; lia).
      apply (subseteq_take n), Hin.
    + intros [_ Hlt]. rewrite take_app_ge by (rewrite length_fmap; lia).
      rewrite length_fmap.
      destruct (n - length (filter P before)) as [|m] eqn:Hm; [lia|].
      apply elem_of_app. right. left.
  - split; [|intros [HP' _]; contradiction].
    intros Hin. exfalso. apply (subseteq_take n) in Hin.
    apply elem_of_app in Hin as [Hin|Hin]; [apply Hb, Hin|apply Ha, Hin].
Qed.

Lemma filter_nil_iff {A} (P : A -> Prop) `{!forall x, Decision (P x)}
    (l : list A) :
  filter P l = [] <-> Forall (fun x => ~ P x) l.
Proof.
  induction l as [|x l IH]; [split; [constructor|reflexivity]|].
  rewrite filter_cons. destruct (decide (P x)) as [HP|HP].
  - split; [discriminate|]. intros Hall. inversion Hall; contradiction.
  - rewrite IH. split; [constructor; assumption|].
    intros Hall. inversion Hall; assumption.
Qed.

(** The insight of a trigger is reported exactly when the trigger fires
    and fewer than five triggers before it in the table fire: the cut to
    five entries drops later insights, never earlier ones; and no insight
    is reported exactly when no trigger fires. *)
Theorem trigger_reported_iff
    (response t : string) (i : nat) (tr : list string * string) :
  triggers !! i = Some tr ->
  (tr.2 ∈ extract_insights response t
   <-> triggered response tr = true
       /\ length (filter (fun tr' => triggered response tr') (take i triggers)) < 5)
  /\ (extract_insights response t = []
      <-> Forall (fun tr' => triggered response tr' = false) triggers).
Proof.
  intros Hi. rewrite extract_insights_by_table. split.
  - rewrite (take_fmap_filter_elem snd (fun tr' => triggered response tr')
               triggers 5 i tr); [|apply (bool_decide_unpack _); vm_compute; reflexivity|exact Hi].
    rewrite Is_true_true. reflexivity.
  - split.
    + intros Hnil. apply take_nil_inv in Hnil as [Hnil|Hnil]; [discriminate Hnil|].
      apply fmap_nil_inv, filter_nil_iff in Hnil.
      eapply Forall_impl; [exact Hnil|]. intros tr' Hn. cbn beta in Hn.
      destruct (triggered response tr'); [exfalso; apply Hn; exact I|reflexivity].
    + intros Hall.
      assert (Hnil : filter (fun tr' => triggered response tr') triggers = []).
      { apply filter_nil_iff. eapply Forall_impl; [exact Hall|].
        intros tr' Hf. cbn beta in Hf. rewrite Hf. intros []. }
      rewrite Hnil. reflexivity.
Qed.

(** [trigger_reported_iff] at the last trigger of the table. *)
Lemma trigger_reported_iff_witness :
  (("timing" :: nil, "Optimize outreach timing").2
     ∈ extract_insights "Good timing adds value" "networking_strategy"
   <-> triggered "Good timing adds value"
         ("timing" :: nil, "Optimize outreach timing") = true
       /\ length (filter (fun tr' => triggered "Good timing adds value" tr')
                         (take 6 triggers)) < 5)
  /\ (extract_insights "Good timing adds value" "networking_strategy" = []
      <-> Forall (fun tr' => triggered "Good timing adds value" tr' = false)
                 triggers).
Proof.
  apply (trigger_reported_iff "Good timing adds value" "networking_strategy" 6
           ("timing" :: nil, "Optimize outreach timing")).
  reflexivity.
Defined.

(** ** Answers by category, number of results, success *)

(** The answers of three of the recognized categories, for every question,
    context and store of text documents: [networking_strategy] uses the
    company sentence exactly when the lower-cased question contains
    "company"; [introduction_advice], which is no key of the knowledge
    base, is filled with the first two statements of the default category,
    not with the introduction statements; [connection_analysis] uses its
    own statements #1 and #3. *)
Theorem recognized_category_answers
    (q c : string) (tds : list (string * value)) :
  exists r1 r2 r3,
    result_of (query q c "networking_strategy") (rag_of tds) = inr r1 /\
    result_of (query q c "introduction_advice") (rag_of tds) = inr r2 /\
    result_of (query q c "connection_analysis") (rag_of tds) = inr r3 /\
    answer r1
    = (if "company" ∈s PyStr.lower q
       then "When networking within a specific company, focus on identifying key decision-makers and building relationships through shared professional interests. Focus on building authentic, mutually beneficial relationships rather than transactional connections. Research the company culture and recent developments to find relevant conversation starters."
       else "Focus on building authentic, mutually beneficial relationships rather than transactional connections. Leverage warm introductions through mutual connections for higher success rates. Consider your specific goals and target audience when developing your approach.") /\
    answer r2
    = "For effective introductions, Focus on building authentic, mutually beneficial relationships rather than transactional connections. Leverage warm introductions through mutual connections for higher success rates. Remember that successful introductions create value for all parties involved." /\
    answer r3
    = "Connection analysis shows: Strong connections show regular interaction patterns and mutual engagement. Connection strength correlates with response rates and collaboration success. Use these insights to prioritize your outreach efforts." /\
    Forall (fun s => ~ (s ∈s answer r1 = true) /\ ~ (s ∈s answer r2 = true)
                     /\ ~ (s ∈s answer r3 = true)) introduction_techniques.
Proof.
  unfold result_of. rewrite !query_text. do 3 eexists.
  split; [reflexivity|]. split; [reflexivity|]. split; [reflexivity|].
  cbn [answer snd]. unfold answer_text.
  destruct ("company" ∈s PyStr.lower q).
  - split; [vm_compute; reflexivity|]. split; [vm_compute; reflexivity|].
    split; [vm_compute; reflexivity|].
    repeat constructor; vm_compute; discriminate.
  - split; [vm_compute; reflexivity|]. split; [vm_compute; reflexivity|].
    split; [vm_compute; reflexivity|].
    repeat constructor; vm_compute; discriminate.
Qed.

Lemma sorted_reverse_length {A} (key : A -> nat) (l : list A) :
  length (sorted_reverse key l) = length l.
Proof. apply Permutation_length, sorted_reverse_perm. Qed.

(** [query] returns as many entries as stored documents contain a token
    of the question, up to three; it returns none exactly when no stored
    document contains a token. *)
Theorem retrieved_count (q c t : string) (tds : list (string * value)) :
  exists r found,
    result_of (query q c t) (rag_of tds) = inr r /\
    retrieved_documents r = Some found /\
    length found
    = Nat.min 3 (length (filter (fun d => 0 < doc_score q d.1) tds)) /\
    (found = [] <-> Forall (fun d => doc_score q d.1 = 0) tds).
Proof.
  unfold result_of. rewrite query_text. do 2 eexists.
  split; [reflexivity|]. split; [reflexivity|].
  assert (Hlen : length (take 3 (sorted_reverse relevance_score
                   (rank q <$> filter (fun d => 0 < doc_score q d.1) tds)))
                 = Nat.min 3 (length (filter (fun d => 0 < doc_score q d.1) tds))).
  { rewrite length_take, sorted_reverse_length, length_fmap. reflexivity. }
  split; [exact Hlen|]. split.
  - intros Hnil. rewrite Hnil in Hlen. cbn [length] in Hlen.
    assert (Hf : filter (fun d => 0 < doc_score q d.1) tds = []).
    { destruct (filter (fun d => 0 < doc_score q d.1) tds); [reflexivity|].
      cbn [length] in Hlen. lia. }
    apply filter_nil_iff in Hf. eapply Forall_impl; [exact Hf|].
    intros d Hd. cbn beta in Hd. lia.
  - intros Hall. rewrite filter_no_match by exact Hall. reflexivity.
Qed.

Lemma texts_or_first_other (docs : list Doc) :
  (exists tds, docs = text_doc <$> tds)
  \/ (exists tds bad rest,
        docs = (text_doc <$> tds) ++ bad :: rest /\ is_str (content bad) = false).
Proof.
  induction docs as [|d docs IH].
  - left. exists []. reflexivity.
  - destruct (is_str (content d)) eqn:Hd.
    + destruct d as [cv m]. cbn in Hd. destruct cv; try discriminate Hd.
      destruct IH as [(tds & ->)|(tds & bad & rest & -> & Hbad)].
      * left. exists ((s, m) :: tds). reflexivity.
      * right. exists ((s, m) :: tds), bad, rest.
        split; [reflexivity|exact Hbad].
    + right. exists [], d, docs. split; [reflexivity|exact Hd].
Qed.

(** With the constructor's knowledge base, [query] succeeds exactly when
    the content of every stored document is a string, whatever the
    question, context and category; it then reports confidence 0.85, and
    0.0 otherwise. *)
Theorem query_succeeds_iff_text_store (q c t : string) (st : rag) :
  knowledge_base st = initial_knowledge_base ->
  exists r,
    result_of (query q c t) st = inr r /\
    success r = forallb (fun d => is_str (content d)) (documents st) /\
    confidence r = (if success r then 0.85 else 0.0)%Q.
Proof.
  intros Hkb. destruct st as [docs kb]. cbn in Hkb. subst kb.
  cbn [documents].
  destruct (texts_or_first_other docs)
    as [(tds & ->)|(tds & bad & rest & -> & Hbad)].
  - change {| documents := text_doc <$> tds;
              knowledge_base := initial_knowledge_base |} with (rag_of tds).
    unfold result_of. rewrite query_text. eexists. split; [reflexivity|].
    cbn [success confidence snd]. split; [|reflexivity].
    symmetry. apply forallb_forall. intros d Hd.
    apply in_map_iff in Hd as (td & <- & _). reflexivity.
  - unfold result_of.
    rewrite (non_text_content_lemma q c t
               {| documents := (text_doc <$> tds) ++ bad :: rest;
                  knowledge_base := initial_knowledge_base |}
               tds bad rest networking_strategies eq_refl Hbad eq_refl).
    eexists. split; [reflexivity|]. cbn [success confidence snd].
    split; [|reflexivity]. symmetry. apply not_true_is_false. intros Hall.
    rewrite forallb_forall in Hall. specialize (Hall bad).
    rewrite Hbad in Hall. discriminate Hall.
    apply in_or_app. right. left. reflexivity.
Qed.

(** [query_succeeds_iff_text_store] at the store with a [null] content. *)
Lemma query_succeeds_iff_text_store_witness :
  exists r,
    result_of (query "warm" "tech" "industry_insights") null_content_store
    = inr r /\
    success r
    = forallb (fun d => is_str (content d)) (documents null_content_store) /\
    confidence r = (if success r then 0.85 else 0.0)%Q.
Proof.
  apply (query_succeeds_iff_text_store "warm" "tech" "industry_insights"
           null_content_store).
  reflexivity.
Defined.
